(** * PromptStudio: sessions, entitlement, usage metering and the Stripe bridge

    A shallow embedding of [src/promptstudio/main.py].  The two module-level
    dictionaries [users_db] and [sessions] are finite maps keyed by strings;
    every function that reads or writes them is a computation over an explicit
    [state].  Python truthiness, the two shapes of a session entry and the
    in-place mutation of the dictionary returned by [get_session_data] are
    written out as the source has them. *)

From Stdlib Require Import ZArith String List.
From stdpp Require Import base option gmap strings list fin_maps.

Open Scope string_scope.
Open Scope Z_scope.

(** ** Python values *)

(** [bool(s)] for a [str]: only the empty string is false. *)
Definition str_truthy (s : string) : bool := bool_decide (s ≠ "").

(** [bool(x)] for an [Optional[str]]: [None] and the empty string are false. *)
Definition truthy (x : option string) : bool :=
  match x with
  | Some s => str_truthy s
  | None => false
  end.

(** ** Data model *)

(** A value of [users_db]: the dict [{"password": ..., "is_pro": ...}].
    ["password"] is read with a subscript and is always there; ["is_pro"] is
    read with [.get("is_pro", False)], so the key is allowed to be missing. *)
Record user_record := UserRecord {
  password : string;
  is_pro : option bool
}.

(** The dict shape of a session entry, [{"username": ..., "counts": {...}}].
    The source tests ["counts" in session_data] and reads the name with
    [.get("username")], so either key may be missing. *)
Record session_dict := SessionFields {
  sd_username : option string;
  sd_counts : option (gmap string Z)
}.

(** A value of [sessions]: a dict, or the old format (the bare username). *)
Inductive session_data :=
  | SessionDict (d : session_dict)
  | SessionLegacy (username : string).

(** [bool(d)] for a dict: false exactly when it has no key. *)
Definition dict_truthy (d : session_dict) : bool :=
  match sd_username d, sd_counts d with
  | None, None => false
  | _, _ => true
  end.

(** The keyword arguments of [stripe.checkout.Session.create]. *)
Record checkout_params := CheckoutParams {
  payment_method_types : list string;
  mode : string;
  line_items : list (string * Z);
  success_url : string;
  cancel_url : string
}.

(** The mutable world of the process: the two global dictionaries and the
    requests sent so far to the payment processor. *)
Record state := State {
  users_db : gmap string user_record;
  sessions : gmap string session_data;
  stripe_calls : list checkout_params
}.

Definition set_users_db (f : gmap string user_record → gmap string user_record)
    (σ : state) : state :=
  State (f (users_db σ)) (sessions σ) (stripe_calls σ).

Definition set_sessions (f : gmap string session_data → gmap string session_data)
    (σ : state) : state :=
  State (users_db σ) (f (sessions σ)) (stripe_calls σ).

Definition log_stripe_call (p : checkout_params) (σ : state) : state :=
  State (users_db σ) (sessions σ) (stripe_calls σ ++ [p]).

(** ** Requests and responses *)

Record request := Request {
  cookies : gmap string string;
  headers : gmap string string;
  body : string
}.

(** The JSON values the handlers put into a response body. *)
Inductive json :=
  | JNull
  | JString (s : string).

Inductive cookie_op :=
  | set_cookie (key value : string) (httponly : bool)
  | delete_cookie (key : string).

(** The responses the modelled handlers build.  A template context is listed
    without its ["request"] entry. *)
Inductive response :=
  | TemplateResponse (name : string) (context : list (string * string))
  | RedirectResponse (url : string) (status_code : Z) (cookie_ops : list cookie_op)
  | JSONResponse (content : list (string * json)) (status_code : Z).

Definition HTTP_302_FOUND : Z := 302.

Definition status_of (r : response) : Z :=
  match r with
  | TemplateResponse _ _ => 200
  | RedirectResponse _ c _ => c
  | JSONResponse _ c => c
  end.

(** ** Computations over the state *)

Definition M (A : Type) : Type := state → A * state.

Definition ret {A} (a : A) : M A := λ σ, (a, σ).

Definition bind {A B} (m : M A) (k : A → M B) : M B :=
  λ σ, let '(a, σ') := m σ in k a σ'.

Definition gets {A} (f : state → A) : M A := λ σ, (f σ, σ).

Definition modify (f : state → state) : M unit := λ σ, (tt, f σ).

Notation "'do' x <~ m 'in' k" := (bind m (λ x, k))
  (at level 10, x name, m at level 100, k at level 200, only parsing).

(** ** Session store *)

(** [secrets.token_urlsafe(32)] is the caller-supplied [session_id]. *)
Definition create_session (session_id : string) (username : string) : M string :=
  do _ <~ modify (set_sessions
                <[session_id := SessionDict (SessionFields (Some username) (Some ∅))]>) in
  ret session_id.

(** The guard [session_id and session_id in sessions] followed by the read
    [sessions[session_id]]. *)
Definition session_entry (session_id : option string) (σ : state)
    : option session_data :=
  match session_id with
  | Some sid => if str_truthy sid then sessions σ !! sid else None
  | None => None
  end.

Definition get_username_from_session (session_id : option string) (σ : state)
    : option string :=
  match session_entry session_id σ with
  | Some (SessionDict d) => sd_username d
  | Some (SessionLegacy username) => Some username
  | None => None
  end.

(** The dict this returns is the object stored under [sessions[session_id]]:
    callers that mutate it mutate the store at that key.  An old-format entry
    is replaced in the store by a fresh dict on the way. *)
Definition get_session_data (session_id : option string) : M (option session_dict) :=
  λ σ,
    match session_id, session_entry session_id σ with
    | Some sid, Some (SessionDict d) => (Some d, σ)
    | Some sid, Some (SessionLegacy username) =>
        let d := SessionFields (Some username) (Some ∅) in
        (Some d, set_sessions <[sid := SessionDict d]> σ)
    | _, _ => (None, σ)
    end.

Definition delete_session (session_id : option string) : M unit :=
  λ σ,
    match session_id, session_entry session_id σ with
    | Some sid, Some _ => (tt, set_sessions (delete sid) σ)
    | _, _ => (tt, σ)
    end.

(** ** Entitlement and usage metering *)

Definition is_user_pro (username : option string) (σ : state) : bool :=
  match username with
  | Some u =>
      if str_truthy u then
        match users_db σ !! u with
        | Some r => default false (is_pro r)
        | None => false
        end
      else false
  | None => false
  end.

(** The three in-place writes of [increment_usage] on the counter dict. *)
Definition bump_counts (tool_name : string) (d : session_dict) : gmap string Z :=
  let c0 := default ∅ (sd_counts d) in
  let c1 := if decide (is_Some (c0 !! tool_name)) then c0 else <[tool_name := 0]> c0 in
  <[tool_name := (c1 !!! tool_name) + 1]> c1.

Definition increment_usage (session_id : option string) (tool_name : string) : M Z :=
  match session_id with
  | Some sid =>
      if str_truthy sid then
        do session_data <~ get_session_data session_id in
        match session_data with
        | Some d =>
            if dict_truthy d then
              let c := bump_counts tool_name d in
              do _ <~ modify (set_sessions
                            <[sid := SessionDict (SessionFields (sd_username d) (Some c))]>) in
              ret (c !!! tool_name)
            else ret 0
        | None => ret 0
        end
      else ret 0
  | None => ret 0
  end.

Definition get_usage_count (session_id : option string) (tool_name : string) : M Z :=
  do session_data <~ get_session_data session_id in
  match session_data with
  | Some d =>
      match sd_counts d with
      | Some c => ret (default 0 (c !! tool_name))
      | None => ret 0
      end
  | None => ret 0
  end.

(** [None] lets the request through; [Some page] is the limit page. *)
Definition check_usage_limit (req : request) (username : string) (tool_name : string)
    : M (option response) :=
  do pro <~ gets (is_user_pro (Some username)) in
  if (pro : bool) then ret None
  else
    let session_id := cookies req !! "session_id" in
    do usage_count <~ get_usage_count session_id tool_name in
    if (usage_count >=? 3)%Z then
      ret (Some (TemplateResponse "limit_reached.html"
                   [("username", username); ("tool_name", tool_name)]))
    else
      do _ <~ increment_usage session_id tool_name in
      ret None.

(** ** Route guards *)

Definition get_current_username (req : request) (σ : state) : option string :=
  get_username_from_session (cookies req !! "session_id") σ.

(** The username when logged in ([inr]), the redirect to ["/"] when not. *)
Definition require_login (req : request) (σ : state) : response + string :=
  match get_current_username req σ with
  | Some username =>
      if str_truthy username then inr username
      else inl (RedirectResponse "/" HTTP_302_FOUND [])
  | None => inl (RedirectResponse "/" HTTP_302_FOUND [])
  end.

(** The common prefix of the six tool POST routes ([sora_tool_generate],
    [runway_tool_generate], ...): the login guard, then the usage check.
    [None] means the route goes on to fill its prompt template. *)
Definition tool_generate (tool_name : string) (req : request) : M (option response) :=
  do auth_result <~ gets (require_login req) in
  match auth_result with
  | inl redirect => ret (Some redirect)
  | inr username => check_usage_limit req username tool_name
  end.

(** ** Accounts *)

Definition login_post (fresh_session_id : string) (username password : string)
    : M response :=
  do db <~ gets users_db in
  match db !! username with
  | Some (UserRecord stored _) =>
      if decide (stored = password) then
        do session_id <~ create_session fresh_session_id username in
        ret (RedirectResponse "/dashboard" HTTP_302_FOUND
               [set_cookie "session_id" session_id true])
      else
        ret (TemplateResponse "login.html" [("error", "Invalid username or password")])
  | None =>
      ret (TemplateResponse "login.html" [("error", "Invalid username or password")])
  end.

Definition register_post (username password : string) : M response :=
  do db <~ gets users_db in
  match db !! username with
  | Some _ =>
      ret (TemplateResponse "register.html" [("error", "Username already exists")])
  | None =>
      do _ <~ modify (set_users_db <[username := UserRecord password (Some false)]>) in
      ret (RedirectResponse "/login" HTTP_302_FOUND [])
  end.

Definition logout (req : request) : M response :=
  do _ <~ delete_session (cookies req !! "session_id") in
  ret (RedirectResponse "/" HTTP_302_FOUND [delete_cookie "session_id"]).

(** ** The payment processor *)

(** What [except Exception as e] reads off a failed processor call:
    [str(e)], [type(e).__name__] and the two optional attributes. *)
Record stripe_exception := StripeException {
  exn_str : string;
  exn_type_name : string;
  exn_user_message : option json;
  exn_code : option json
}.

Inductive create_result :=
  | SessionCreated (url : string)
  | CreateRaised (e : stripe_exception).

(** A field of a JSON object as [dict.get] sees it: the key is missing, it
    holds [null], or it holds a value. *)
Inductive field (A : Type) :=
  | Missing
  | Null
  | Value (a : A).
Arguments Missing {A}.
Arguments Null {A}.
Arguments Value {A} a.

(** [d.get(key)]: [None] for a missing key and for [null]. *)
Definition field_get {A} (f : field A) : option A :=
  match f with
  | Value a => Some a
  | Missing | Null => None
  end.

Record customer_details_obj := CustomerDetails {
  email : field string
}.

(** [event.data.object]: the two fields of the Checkout Session the handler
    reads. *)
Record checkout_session_obj := CheckoutSession {
  customer_email : field string;
  customer_details : field customer_details_obj
}.

Record event := Event {
  ev_type : string;
  ev_data_object : checkout_session_obj
}.

(** The three outcomes of [stripe.Webhook.construct_event] the handler is
    written against. *)
Inductive construct_result :=
  | Constructed (e : event)
  | RaisedValueError
  | RaisedSignatureVerificationError.

Inductive exception :=
  | AttributeError (msg : string).

(** What a handler does with a request: it returns a response, or an
    exception leaves it uncaught. *)
Inductive outcome :=
  | Returned (r : response)
  | Uncaught (e : exception).

(** [session.get("customer_details", {}).get("email")]: the default [{}]
    stands in for a missing key only; on [null] the second [.get] is called
    on [None]. *)
Definition customer_details_email (session : checkout_session_obj)
    : exception + option string :=
  match customer_details session with
  | Missing => inr None
  | Null => inl (AttributeError "'NoneType' object has no attribute 'get'")
  | Value d => inr (field_get (email d))
  end.

(** [session.get("customer_email") or session.get("customer_details", {}).get("email")]:
    the right operand is evaluated only when the left one is falsy. *)
Definition purchaser_email (session : checkout_session_obj)
    : exception + option string :=
  let a := field_get (customer_email session) in
  if truthy a then inr a else customer_details_email session.

(** The guarded write [users_db[customer_email]["is_pro"] = True] of the
    webhook (the registry's "set entitlement paid"). *)
Definition set_entitlement_paid (customer_email : option string)
    (db : gmap string user_record) : gmap string user_record :=
  match customer_email with
  | Some name =>
      if str_truthy name then
        match db !! name with
        | Some r => <[name := UserRecord (password r) (Some true)]> db
        | None => db
        end
      else db
  | None => db
  end.

Section Stripe.

(** [os.getenv]. *)
Variable environ : gmap string string.
(** [stripe.checkout.Session.create]. *)
Variable Session_create : checkout_params → create_result.
(** [stripe.Webhook.construct_event payload sig_header secret]. *)
Variable construct_event : string → option string → option string → construct_result.

Definition STRIPE_WEBHOOK_SECRET : option string := environ !! "STRIPE_WEBHOOK_SECRET".

Definition error_details (e : stripe_exception) : list (string * json) :=
  [("error", JString (exn_str e)); ("error_type", JString (exn_type_name e))]
  ++ match exn_user_message e with Some m => [("user_message", m)] | None => [] end
  ++ match exn_code e with Some c => [("code", c)] | None => [] end.

Definition create_checkout_session (req : request) : M response :=
  do auth_result <~ gets (require_login req) in
  match auth_result with
  | inl redirect => ret redirect
  | inr username =>
      match environ !! "STRIPE_PRICE_ID" with
      | None =>
          ret (JSONResponse [("error", JString "PRICE_ID is missing in environment")] 500)
      | Some price_id =>
          let params :=
            CheckoutParams ["card"] "subscription" [(price_id, 1)]
              "http://127.0.0.1:8000/success" "http://127.0.0.1:8000/cancel" in
          do _ <~ modify (log_stripe_call params) in
          match Session_create params with
          | SessionCreated url => ret (JSONResponse [("checkout_url", JString url)] 200)
          | CreateRaised e => ret (JSONResponse (error_details e) 500)
          end
      end
  end.

Definition stripe_webhook (req : request) : M outcome :=
  let payload := body req in
  let sig_header := headers req !! "stripe-signature" in
  match construct_event payload sig_header STRIPE_WEBHOOK_SECRET with
  | RaisedValueError =>
      ret (Returned (JSONResponse [("error", JString "Invalid payload")] 400))
  | RaisedSignatureVerificationError =>
      ret (Returned (JSONResponse [("error", JString "Invalid signature")] 400))
  | Constructed ev =>
      if decide (ev_type ev = "checkout.session.completed") then
        let session := ev_data_object ev in
        match purchaser_email session with
        | inl e => ret (Uncaught e)
        | inr customer_email =>
            do _ <~ modify (set_users_db (set_entitlement_paid customer_email)) in
            ret (Returned (JSONResponse [("status", JString "success")] 200))
        end
      else ret (Returned (JSONResponse [("status", JString "success")] 200))
  end.

(** ** The program as a transition system *)

(** The requests that can change the state.  The GET pages only read it. *)
Inductive op :=
  | OpRegister (username password : string)
  | OpLogin (fresh_session_id username password : string)
  | OpLogout (req : request)
  | OpTool (tool_name : string) (req : request)
  | OpCheckout (req : request)
  | OpWebhook (req : request).

Definition step (o : op) (σ : state) : state :=
  match o with
  | OpRegister u p => snd (register_post u p σ)
  | OpLogin t u p => snd (login_post t u p σ)
  | OpLogout req => snd (logout req σ)
  | OpTool tool req => snd (tool_generate tool req σ)
  | OpCheckout req => snd (create_checkout_session req σ)
  | OpWebhook req => snd (stripe_webhook req σ)
  end.

Definition run_ops (os : list op) (σ : state) : state :=
  fold_left (λ σ o, step o σ) os σ.

End Stripe.

(** [n] successive calls of [check_usage_limit] with the same arguments: the
    decisions in order, and the final state. *)
Fixpoint check_usage_limit_n (n : nat) (req : request) (username tool_name : string)
    (σ : state) : list (option response) * state :=
  match n with
  | O => ([], σ)
  | S k =>
      let '(r, σ1) := check_usage_limit req username tool_name σ in
      let '(rs, σ2) := check_usage_limit_n k req username tool_name σ1 in
      (r :: rs, σ2)
  end.

(** The counter a dict entry holds for a tool, as [get_usage_count] reads it. *)
Definition dict_count (tool_name : string) (d : session_dict) : Z :=
  match sd_counts d with
  | Some c => default 0 (c !! tool_name)
  | None => 0
  end.

(** The entry [increment_usage] leaves in the store. *)
Definition bumped (tool_name : string) (d : session_dict) : session_data :=
  SessionDict (SessionFields (sd_username d) (Some (bump_counts tool_name d))).

Definition limit_page (username tool_name : string) : response :=
  TemplateResponse "limit_reached.html"
    [("username", username); ("tool_name", tool_name)].

(** The spec's reading of the purchaser's email: a field counts as present
    when it holds a non-empty string; [customer_email] is preferred, the
    nested [customer_details.email] is the fallback. *)
Definition present (f : field string) : option string :=
  match f with
  | Value s => if str_truthy s then Some s else None
  | Missing | Null => None
  end.

Definition event_email (session : checkout_session_obj) : option string :=
  match present (customer_email session) with
  | Some e => Some e
  | None =>
      match customer_details session with
      | Value d => present (email d)
      | Missing | Null => None
      end
  end.

(** The record of a user once the webhook has marked it paid. *)
Definition paid_record (r : user_record) : user_record :=
  UserRecord (password r) (Some true).

Definition invalid_login : response :=
  TemplateResponse "login.html" [("error", "Invalid username or password")].

Definition acknowledged : response :=
  JSONResponse [("status", JString "success")] 200.

(** A small concrete world used to instantiate the theorems below. *)
Definition demo_request : request := Request {["session_id" := "tok"]} ∅ "".

Definition demo_state : state :=
  State {["alice@example.com" := UserRecord "pw" (Some false)]}
        {["tok" := SessionDict (SessionFields (Some "alice@example.com") (Some ∅))]}
        [].

Definition demo_paid_state : state :=
  State {["alice@example.com" := UserRecord "pw" (Some true)]}
        {["tok" := SessionDict (SessionFields (Some "alice@example.com") (Some ∅))]}
        [].

(** The stored password of a record, under a name that does not clash with
    the handlers' [password] parameter. *)
Definition stored_password (r : user_record) : string := password r.

(** The response of a successful login: the dashboard redirect carrying the
    new session cookie. *)
Definition login_redirect (session_id : string) : response :=
  RedirectResponse "/dashboard" HTTP_302_FOUND [set_cookie "session_id" session_id true].

(** A signed "checkout completed" event whose session carries neither a
    [customer_email] nor a [customer_details] object (both are [null]). *)
Definition null_details_event : event :=
  Event "checkout.session.completed" (CheckoutSession Null Null).

(** A processor that accepts every payload and delivers [ev]. *)
Definition delivers (ev : event) : string → option string → option string → construct_result :=
  λ _ _ _, Constructed ev.

Definition demo_event : event :=
  Event "checkout.session.completed"
    (CheckoutSession Null (Value (CustomerDetails (Value "alice@example.com")))).

Definition demo_webhook_request : request :=
  Request ∅ {["stripe-signature" := "t=1,v1=00"]} "{}".

Definition demo_create : checkout_params → create_result :=
  λ _, SessionCreated "https://checkout.stripe.com/c/pay/cs_test".

(** What [construct_event] makes of a request in [stripe_webhook]. *)
Definition constructed_event (environ : gmap string string)
    (construct_event : string → option string → option string → construct_result)
    (req : request) : construct_result :=
  construct_event (body req) (headers req !! "stripe-signature")
    (STRIPE_WEBHOOK_SECRET environ).

(** A run that exercises every kind of request. *)
Definition demo_ops : list op :=
  [OpRegister "alice@example.com" "changed";
   OpRegister "bob@example.com" "pw2";
   OpLogin "tok2" "alice@example.com" "pw";
   OpTool "sora" demo_request;
   OpCheckout demo_request;
   OpWebhook demo_webhook_request;
   OpLogout demo_request].

(** ** The scene tool *)

(** The f-string of [tool_scene_generate]: the heading, the idea as typed,
    and the fixed four-scene body. *)
Definition scene_prompt (video_idea : string) : string :=
  String.append "Scene Breakdown for: " (String.append video_idea "

**Scene 1 – Establishing Shot:**  
Wide angle showing the environment and setting the mood. Introduce the location, time of day, and overall atmosphere that frames the narrative.

**Scene 2 – Main Action:**  
The primary character enters and begins the core action. Focus on movement, energy, and the driving force of the scene.

**Scene 3 – Conflict / Twist:**  
A complication or unexpected element emerges. This could be an obstacle, revelation, or escalation that adds tension and depth.

**Scene 4 – Resolution:**  
The scene reaches its conclusion with a clear outcome. This could be a resolution, cliffhanger, or transition that sets up the next sequence.
").

(** POST [/tool/scene]: the login guard, the usage check, then the page with
    the generated prompt. *)
Definition tool_scene_generate (req : request) (video_idea : string) : M response :=
  do auth_result <~ gets (require_login req) in
  match auth_result with
  | inl redirect => ret redirect
  | inr username =>
      do limit_check <~ check_usage_limit req username "scene" in
      match limit_check with
      | Some page => ret page
      | None =>
          ret (TemplateResponse "tool_scene.html"
                 [("generated_prompt", scene_prompt video_idea);
                  ("video_idea", video_idea);
                  ("username", username)])
      end
  end.

(** ** Reachable states *)

(** The state of a freshly started process. *)
Definition initial_state : state := State ∅ ∅ [].

(** A request that carries only the session cookie. *)
Definition with_session (session_id : string) : request :=
  Request {["session_id" := session_id]} ∅ "".

(** Every counter that exists has been raised at least once and never past
    the ceiling. *)
Definition counts_in_range (c : gmap string Z) : Prop :=
  map_Forall (λ _ k, 1 ≤ k ≤ 3) c.

(** A session entry as [create_session] and [increment_usage] leave it: a
    dict with both keys, owned by a registered name, counters in range. *)
Definition session_well_formed (db : gmap string user_record) (e : session_data) : Prop :=
  match e with
  | SessionDict (SessionFields (Some u) (Some c)) =>
      is_Some (db !! u) ∧ counts_in_range c
  | _ => False
  end.

Definition well_formed (σ : state) : Prop :=
  map_Forall (λ _ e, session_well_formed (users_db σ) e) (sessions σ)
  ∧ map_Forall (λ _ r, is_Some (is_pro r)) (users_db σ).

(** A session entry read as a dict: what [get_session_data] hands out for
    it (an old-format entry is read as a dict with no counters). *)
Definition dict_view (e : session_data) : session_dict :=
  match e with
  | SessionDict d => d
  | SessionLegacy username => SessionFields (Some username) (Some ∅)
  end.

(** The redirect of the login guard. *)
Definition login_required : response := RedirectResponse "/" HTTP_302_FOUND [].

(** A world in which alice has used up her three "sora" calls under [tok]. *)
Definition demo_spent_state : state :=
  State {["alice@example.com" := UserRecord "pw" (Some false)]}
        {["tok" := SessionDict (SessionFields (Some "alice@example.com")
                                  (Some {["sora" := 3]}))]}
        [].

(** The one request [create_checkout_session] sends for a price: a card
    subscription for one unit, with the two callback addresses of the source. *)
Definition checkout_request (price_id : string) : checkout_params :=
  CheckoutParams ["card"] "subscription" [(price_id, 1)]
    "http://127.0.0.1:8000/success" "http://127.0.0.1:8000/cancel".

Definition demo_other_event : event :=
  Event "invoice.paid"
    (CheckoutSession (Value "alice@example.com") Missing).

Definition demo_failing_create : checkout_params → create_result :=
  λ _, CreateRaised (StripeException "No such price" "InvalidRequestError"
                       (Some (JString "No such price")) (Some (JString "resource_missing"))).

(** A visit from the start of the process: register, log in, ask for five
    sora prompts, pay, ask once more. *)
Definition demo_browsing : list op :=
  [OpRegister "alice@example.com" "pw";
   OpLogin "tok2" "alice@example.com" "pw";
   OpTool "sora" (with_session "tok2");
   OpTool "sora" (with_session "tok2");
   OpTool "sora" (with_session "tok2");
   OpTool "sora" (with_session "tok2");
   OpTool "sora" (with_session "tok2");
   OpCheckout (with_session "tok2");
   OpWebhook demo_webhook_request;
   OpTool "sora" (with_session "tok2")].

(** * Properties *)

(** ** Session store *)

Lemma session_entry_Some sid σ e :
  session_entry (Some sid) σ = Some e ↔ sid ≠ "" ∧ sessions σ !! sid = Some e.
Proof.
  unfold session_entry, str_truthy.
  destruct (decide (sid = "")) as [->|Hne].
  - rewrite bool_decide_false by (intros ?; done). split; [done | by intros [? _]].
  - rewrite bool_decide_true by done. split; [done | by intros [_ ?]].
Qed.

Lemma session_entry_set_sessions_eq sid σ e :
  sid ≠ "" → session_entry (Some sid) (set_sessions <[sid := e]> σ) = Some e.
Proof.
  intros Hne. apply session_entry_Some. split; [done|]. simpl. apply lookup_insert_eq.
Qed.

Lemma get_session_data_dict sid σ d :
  session_entry (Some sid) σ = Some (SessionDict d) →
  get_session_data (Some sid) σ = (Some d, σ).
Proof. intros H. unfold get_session_data. by rewrite H. Qed.

Lemma get_session_data_legacy sid σ name :
  session_entry (Some sid) σ = Some (SessionLegacy name) →
  get_session_data (Some sid) σ =
    (Some (SessionFields (Some name) (Some ∅)),
     set_sessions <[sid := SessionDict (SessionFields (Some name) (Some ∅))]> σ).
Proof. intros H. unfold get_session_data. by rewrite H. Qed.

Lemma get_session_data_unknown session_id σ :
  session_entry session_id σ = None →
  get_session_data session_id σ = (None, σ).
Proof.
  intros H. unfold get_session_data. destruct session_id as [sid|]; [|done].
  by rewrite H.
Qed.

(** ** Usage metering *)

Lemma dict_count_bumped tool d :
  dict_count tool (SessionFields (sd_username d) (Some (bump_counts tool d)))
  = dict_count tool d + 1.
Proof.
  unfold dict_count, bump_counts. simpl.
  rewrite lookup_insert_eq. simpl.
  destruct (sd_counts d) as [c|]; simpl.
  - case_decide as Hc.
    + destruct Hc as [v Hv]. by rewrite (lookup_total_correct _ _ _ Hv), Hv.
    + rewrite lookup_total_insert_eq. apply eq_None_not_Some in Hc. by rewrite Hc.
  - rewrite decide_False by (rewrite lookup_empty; by intros [? ?]).
    by rewrite lookup_total_insert_eq.
Qed.

Lemma get_usage_count_dict sid tool σ d :
  session_entry (Some sid) σ = Some (SessionDict d) →
  get_usage_count (Some sid) tool σ = (dict_count tool d, σ).
Proof.
  intros H. unfold get_usage_count, bind.
  rewrite (get_session_data_dict _ _ _ H). unfold dict_count.
  by destruct (sd_counts d).
Qed.

Lemma get_usage_count_legacy sid tool σ name :
  session_entry (Some sid) σ = Some (SessionLegacy name) →
  get_usage_count (Some sid) tool σ =
    (0, set_sessions <[sid := SessionDict (SessionFields (Some name) (Some ∅))]> σ).
Proof.
  intros H. unfold get_usage_count, bind.
  rewrite (get_session_data_legacy _ _ _ H). simpl. by rewrite lookup_empty.
Qed.

Lemma increment_usage_dict sid tool σ d :
  session_entry (Some sid) σ = Some (SessionDict d) →
  dict_truthy d = true →
  increment_usage (Some sid) tool σ =
    (dict_count tool d + 1, set_sessions <[sid := bumped tool d]> σ).
Proof.
  intros H Ht. pose proof H as [Hne _]%session_entry_Some.
  unfold increment_usage, str_truthy. rewrite bool_decide_true by done.
  unfold bind. rewrite (get_session_data_dict _ _ _ H), Ht.
  unfold modify, ret, bumped. f_equal.
  rewrite <- dict_count_bumped. unfold dict_count. simpl.
  unfold bump_counts. by rewrite lookup_total_insert_eq, lookup_insert_eq.
Qed.

Lemma is_user_pro_set_sessions u f σ :
  is_user_pro u (set_sessions f σ) = is_user_pro u σ.
Proof. done. Qed.

(** At the ceiling the limit page is returned and nothing is written. *)
Lemma check_usage_limit_at_ceiling req sid u tool σ d :
  cookies req !! "session_id" = Some sid →
  is_user_pro (Some u) σ = false →
  session_entry (Some sid) σ = Some (SessionDict d) →
  3 ≤ dict_count tool d →
  check_usage_limit req u tool σ = (Some (limit_page u tool), σ).
Proof.
  intros Hc Hfree He Hk. unfold check_usage_limit, bind, gets.
  rewrite Hfree, Hc, (get_usage_count_dict _ _ _ _ He).
  destruct (Z.geb_spec (dict_count tool d) 3); [done | lia].
Qed.

(** Below the ceiling the call is let through and the counter grows by one. *)
Lemma check_usage_limit_below_ceiling req sid u tool σ d :
  cookies req !! "session_id" = Some sid →
  is_user_pro (Some u) σ = false →
  session_entry (Some sid) σ = Some (SessionDict d) →
  dict_truthy d = true →
  dict_count tool d < 3 →
  check_usage_limit req u tool σ = (None, set_sessions <[sid := bumped tool d]> σ).
Proof.
  intros Hc Hfree He Ht Hk. unfold check_usage_limit, bind, gets.
  rewrite Hfree, Hc, (get_usage_count_dict _ _ _ _ He).
  destruct (Z.geb_spec (dict_count tool d) 3); [lia |].
  by rewrite (increment_usage_dict _ _ _ _ He Ht).
Qed.

(** The first call on an old-format entry: the entry is upgraded to a dict
    by the read, then the counter is created and set to one. *)
Lemma check_usage_limit_legacy req sid u tool σ name :
  cookies req !! "session_id" = Some sid →
  is_user_pro (Some u) σ = false →
  session_entry (Some sid) σ = Some (SessionLegacy name) →
  check_usage_limit req u tool σ =
    (None,
     set_sessions <[sid := bumped tool (SessionFields (Some name) (Some ∅))]>
       (set_sessions <[sid := SessionDict (SessionFields (Some name) (Some ∅))]> σ)).
Proof.
  intros Hc Hfree He. pose proof He as [Hne _]%session_entry_Some.
  unfold check_usage_limit, bind, gets.
  rewrite Hfree, Hc, (get_usage_count_legacy _ _ _ _ He).
  change (0 >=? 3) with false. cbv beta iota.
  by rewrite (increment_usage_dict sid tool _ (SessionFields (Some name) (Some ∅)))
    by (done || by apply session_entry_set_sessions_eq).
Qed.

(** A run of [n] calls on a dict entry that has [j] free calls left: the
    first [min n j] are let through, the rest get the limit page, and the
    counter ends [j - n] below the ceiling. *)
Lemma check_usage_limit_n_budget req sid u tool :
  cookies req !! "session_id" = Some sid →
  ∀ n j σ d,
    is_user_pro (Some u) σ = false →
    session_entry (Some sid) σ = Some (SessionDict d) →
    dict_truthy d = true →
    (j ≤ 3)%nat →
    dict_count tool d = 3 - Z.of_nat j →
    ∃ σ' d',
      check_usage_limit_n n req u tool σ =
        ((replicate (Nat.min n j) None
            ++ replicate (n - j) (Some (limit_page u tool)))%list, σ')
      ∧ session_entry (Some sid) σ' = Some (SessionDict d')
      ∧ dict_count tool d' = 3 - Z.of_nat (j - n).
Proof.
  intros Hc. induction n as [|n IH]; intros j σ d Hfree He Ht Hj Hk.
  - exists σ, d. simpl. by rewrite Nat.sub_0_r.
  - simpl. destruct j as [|j].
    + rewrite (check_usage_limit_at_ceiling req sid u tool σ d) by (done || lia).
      destruct (IH 0%nat σ d) as (σ' & d' & Hrun & He' & Hk'); [done..|].
      exists σ', d'. rewrite Hrun. simpl.
      rewrite Nat.min_0_r, Nat.sub_0_r. simpl. done.
    + rewrite (check_usage_limit_below_ceiling req sid u tool σ d) by (done || lia).
      pose proof He as [Hne _]%session_entry_Some.
      destruct (IH j (set_sessions <[sid := bumped tool d]> σ)
                  (SessionFields (sd_username d) (Some (bump_counts tool d))))
        as (σ' & d' & Hrun & He' & Hk').
      * done.
      * by apply session_entry_set_sessions_eq.
      * unfold dict_truthy. simpl. by destruct (sd_username d).
      * lia.
      * rewrite dict_count_bumped. lia.
      * exists σ', d'. rewrite Hrun. done.
Qed.

(** C1. For a session that resolves to a free identity and a tool whose
    counter reads 0, the first three calls of [check_usage_limit] are let
    through ([None]) and raise the counter by one each; every later call
    returns the limit page and writes nothing, so [get_usage_count] reads 3
    after any number of calls beyond the third. *)
Theorem free_tier_three_then_limit req sid u tool σ :
  cookies req !! "session_id" = Some sid →
  get_username_from_session (Some sid) σ = Some u →
  is_user_pro (Some u) σ = false →
  fst (get_usage_count (Some sid) tool σ) = 0 →
  ∀ n : nat,
    fst (check_usage_limit_n n req u tool σ) =
      (replicate (Nat.min n 3) None
         ++ replicate (n - 3) (Some (limit_page u tool)))%list
    ∧ fst (get_usage_count (Some sid) tool
             (snd (check_usage_limit_n n req u tool σ))) = Z.of_nat (Nat.min n 3).
Proof.
  intros Hc Hu Hfree H0 n.
  unfold get_username_from_session in Hu.
  destruct (session_entry (Some sid) σ) as [[d|name]|] eqn:He; [| |done].
  - rewrite (get_usage_count_dict _ _ _ _ He) in H0. simpl in H0.
    destruct (check_usage_limit_n_budget req sid u tool Hc n 3%nat σ d)
      as (σ' & d' & Hrun & He' & Hk'); [done..| |done|lia|].
    { unfold dict_truthy. by rewrite Hu. }
    rewrite Hrun. simpl. rewrite (get_usage_count_dict _ _ _ _ He'). simpl.
    split; [done | lia].
  - injection Hu as ->. destruct n as [|n].
    { simpl. by rewrite H0. }
    simpl. rewrite (check_usage_limit_legacy req sid u tool σ u) by done.
    pose proof He as [Hne _]%session_entry_Some.
    set (d0 := SessionFields (Some u) (Some ∅)).
    destruct (check_usage_limit_n_budget req sid u tool Hc n 2%nat
                (set_sessions <[sid := bumped tool d0]>
                   (set_sessions <[sid := SessionDict d0]> σ))
                (SessionFields (Some u) (Some (bump_counts tool d0))))
      as (σ' & d' & Hrun & He' & Hk'); [done| |done|lia| |].
    { by apply session_entry_set_sessions_eq. }
    { transitivity (dict_count tool d0 + 1); [exact (dict_count_bumped tool d0)|].
      unfold dict_count, d0. simpl. by rewrite lookup_empty. }
    rewrite Hrun. simpl.
    rewrite (get_usage_count_dict _ _ _ _ He'). simpl.
    split; [done | lia].
Qed.

Lemma free_tier_three_then_limit_witness :
  fst (check_usage_limit_n 5 demo_request "alice@example.com" "sora" demo_state) =
    [None; None; None;
     Some (limit_page "alice@example.com" "sora");
     Some (limit_page "alice@example.com" "sora")]
  ∧ fst (get_usage_count (Some "tok") "sora"
           (snd (check_usage_limit_n 5 demo_request "alice@example.com" "sora"
                   demo_state))) = 3.
Proof.
  apply (free_tier_three_then_limit demo_request "tok" "alice@example.com" "sora"
           demo_state); vm_compute; reflexivity.
Defined.

Lemma check_usage_limit_pro req u tool σ :
  is_user_pro (Some u) σ = true →
  check_usage_limit req u tool σ = (None, σ).
Proof.
  intros Hpro. unfold check_usage_limit, bind, gets. by rewrite Hpro.
Qed.

(** C2. For a paid identity every call of [check_usage_limit] is let through
    and the whole state, the session's counters included, is left as it was,
    however many calls are made. *)
Theorem pro_user_never_metered req u tool σ :
  is_user_pro (Some u) σ = true →
  ∀ n : nat, check_usage_limit_n n req u tool σ = (replicate n None, σ).
Proof.
  intros Hpro. induction n as [|n IH]; [done|].
  simpl. by rewrite (check_usage_limit_pro _ _ _ _ Hpro), IH.
Qed.

Lemma pro_user_never_metered_witness :
  check_usage_limit_n 4 demo_request "alice@example.com" "sora" demo_paid_state
  = ([None; None; None; None], demo_paid_state).
Proof.
  apply (pro_user_never_metered demo_request "alice@example.com" "sora"
           demo_paid_state); vm_compute; reflexivity.
Defined.

(** ** Accounts *)

(** C5. Registering a name that is already in the registry returns the
    "Username already exists" form and leaves the whole state, hence the
    stored password and entitlement flag of that name, untouched. *)
Theorem register_post_existing_name username password σ r :
  users_db σ !! username = Some r →
  register_post username password σ =
    (TemplateResponse "register.html" [("error", "Username already exists")], σ).
Proof.
  intros Hr. unfold register_post, bind, gets. by rewrite Hr.
Qed.

Lemma register_post_existing_name_witness :
  register_post "alice@example.com" "other" demo_paid_state =
    (TemplateResponse "register.html" [("error", "Username already exists")],
     demo_paid_state)
  ∧ users_db demo_paid_state !! "alice@example.com" = Some (UserRecord "pw" (Some true)).
Proof.
  split; [|vm_compute; reflexivity].
  apply (register_post_existing_name "alice@example.com" "other" demo_paid_state
           (UserRecord "pw" (Some true))).
  vm_compute; reflexivity.
Defined.

Lemma register_post_fresh_name username password σ :
  users_db σ !! username = None →
  register_post username password σ =
    (RedirectResponse "/login" HTTP_302_FOUND [],
     set_users_db <[username := UserRecord password (Some false)]> σ).
Proof.
  intros Hr. unfold register_post, bind, gets. by rewrite Hr.
Qed.

Lemma login_post_match fresh username password σ r :
  users_db σ !! username = Some r →
  stored_password r = password →
  login_post fresh username password σ =
    (login_redirect fresh,
     set_sessions
       <[fresh := SessionDict (SessionFields (Some username) (Some ∅))]> σ).
Proof.
  intros Hr Hp. unfold login_post, bind, gets. rewrite Hr.
  destruct r as [stored pro]. simpl in Hp. by rewrite decide_True.
Qed.

Lemma login_post_no_match fresh username password σ :
  ¬ (∃ r, users_db σ !! username = Some r ∧ stored_password r = password) →
  login_post fresh username password σ = (invalid_login, σ).
Proof.
  intros Hno. unfold login_post, bind, gets.
  destruct (users_db σ !! username) as [[stored pro]|] eqn:Hr; [|done].
  rewrite decide_False; [done|].
  intros Heq. apply Hno. by exists (UserRecord stored pro).
Qed.

(** C8. [login_post] answers with the dashboard redirect exactly when the
    name is registered and the submitted password equals the stored one; an
    unknown name and a known name with a wrong password get the very same
    "Invalid username or password" form, and neither changes the state. *)
Theorem login_post_exact_match_generic_failure σ :
  (∀ fresh username password,
     fst (login_post fresh username password σ) = login_redirect fresh
     ↔ ∃ r, users_db σ !! username = Some r ∧ stored_password r = password)
  ∧ (∀ fresh1 unknown password1 fresh2 known password2 r,
       users_db σ !! unknown = None →
       users_db σ !! known = Some r →
       stored_password r ≠ password2 →
       login_post fresh1 unknown password1 σ = (invalid_login, σ)
       ∧ login_post fresh2 known password2 σ = (invalid_login, σ)).
Proof.
  split.
  - intros fresh username password. split.
    + intros Hok.
      destruct (users_db σ !! username) as [[stored pro]|] eqn:Hr.
      * destruct (decide (stored = password)) as [->|Hne].
        { by exists (UserRecord password pro). }
        rewrite login_post_no_match in Hok; [done|].
        intros (r & Hr' & Hp). rewrite Hr in Hr'. injection Hr' as <-. done.
      * rewrite login_post_no_match in Hok; [done|].
        intros (r & Hr' & _). by rewrite Hr in Hr'.
    + intros (r & Hr & Hp). by rewrite (login_post_match _ _ _ _ _ Hr Hp).
  - intros fresh1 unknown password1 fresh2 known password2 r Hun Hkn Hbad. split.
    + apply login_post_no_match. intros (r' & Hr & _). by rewrite Hun in Hr.
    + apply login_post_no_match. intros (r' & Hr & Hp).
      rewrite Hkn in Hr. injection Hr as <-. done.
Qed.

Lemma login_post_exact_match_generic_failure_witness :
  login_post "t1" "mallory@example.com" "pw" demo_state = (invalid_login, demo_state)
  ∧ login_post "t2" "alice@example.com" "guess" demo_state = (invalid_login, demo_state).
Proof.
  apply (proj2 (login_post_exact_match_generic_failure demo_state)
           "t1" "mallory@example.com" "pw" "t2" "alice@example.com" "guess"
           (UserRecord "pw" (Some false))); vm_compute; (reflexivity || discriminate).
Defined.

(** ** Logout *)

Lemma session_entry_delete session_id σ :
  session_entry session_id (snd (delete_session session_id σ)) = None.
Proof.
  unfold delete_session. destruct session_id as [sid|]; [|done].
  destruct (session_entry (Some sid) σ) as [e|] eqn:He; simpl; [|done].
  unfold session_entry. destruct (str_truthy sid); [|done].
  simpl. apply lookup_delete_eq.
Qed.

Lemma delete_session_absent session_id σ :
  session_entry session_id σ = None →
  delete_session session_id σ = (tt, σ).
Proof.
  intros He. unfold delete_session. destruct session_id as [sid|]; [|done].
  by rewrite He.
Qed.

(** C7. After [delete_session] the token resolves to nothing, through
    [get_session_data] and through [get_username_from_session], exactly as a
    token that is not in the store does; deleting again, or deleting a token
    that is not in the store, changes nothing. *)
Theorem delete_session_then_unknown session_id σ :
  let σ' := snd (delete_session session_id σ) in
  get_session_data session_id σ' = (None, σ')
  ∧ get_username_from_session session_id σ' = None
  ∧ (∀ never_issued τ,
       sessions τ !! never_issued = None →
       get_session_data (Some never_issued) τ = (None, τ)
       ∧ get_username_from_session (Some never_issued) τ = None)
  ∧ delete_session session_id σ' = (tt, σ')
  ∧ (session_entry session_id σ = None → σ' = σ).
Proof.
  intros σ'. pose proof (session_entry_delete session_id σ) as Hgone.
  fold σ' in Hgone. split; [|split; [|split; [|split]]].
  - by apply get_session_data_unknown.
  - unfold get_username_from_session. by rewrite Hgone.
  - intros never_issued τ Hnone.
    assert (session_entry (Some never_issued) τ = None) as He.
    { unfold session_entry. by destruct (str_truthy never_issued). }
    split; [by apply get_session_data_unknown|].
    unfold get_username_from_session. by rewrite He.
  - by apply delete_session_absent.
  - intros He. unfold σ'. by rewrite delete_session_absent.
Qed.

Lemma delete_session_then_unknown_witness :
  get_session_data (Some "tok") (snd (delete_session (Some "tok") demo_state))
  = (None, snd (delete_session (Some "tok") demo_state))
  ∧ sessions (snd (delete_session (Some "tok") demo_state)) = ∅.
Proof.
  split; [|vm_compute; reflexivity].
  exact (proj1 (delete_session_then_unknown (Some "tok") demo_state)).
Defined.

(** ** Frame: who writes [users_db] *)

Lemma get_session_data_users session_id σ :
  users_db (snd (get_session_data session_id σ)) = users_db σ.
Proof.
  unfold get_session_data. destruct session_id as [sid|]; [|done].
  by destruct (session_entry (Some sid) σ) as [[d|name]|].
Qed.

Lemma get_usage_count_users session_id tool σ :
  users_db (snd (get_usage_count session_id tool σ)) = users_db σ.
Proof.
  unfold get_usage_count, bind.
  pose proof (get_session_data_users session_id σ) as Hu.
  destruct (get_session_data session_id σ) as [[d|] σ1]; simpl in Hu; [|done].
  by destruct (sd_counts d).
Qed.

Lemma increment_usage_users session_id tool σ :
  users_db (snd (increment_usage session_id tool σ)) = users_db σ.
Proof.
  unfold increment_usage. destruct session_id as [sid|]; [|done].
  destruct (str_truthy sid); [|done]. unfold bind.
  pose proof (get_session_data_users (Some sid) σ) as Hu.
  destruct (get_session_data (Some sid) σ) as [[d|] σ1]; simpl in Hu; [|done].
  by destruct (dict_truthy d).
Qed.

Lemma check_usage_limit_users req u tool σ :
  users_db (snd (check_usage_limit req u tool σ)) = users_db σ.
Proof.
  unfold check_usage_limit, bind, gets.
  destruct (is_user_pro (Some u) σ); [done|].
  pose proof (get_usage_count_users (cookies req !! "session_id") tool σ) as Hu.
  destruct (get_usage_count (cookies req !! "session_id") tool σ) as [k σ1].
  simpl in Hu. destruct (k >=? 3); [done|].
  pose proof (increment_usage_users (cookies req !! "session_id") tool σ1) as Hi.
  destruct (increment_usage (cookies req !! "session_id") tool σ1) as [k' σ2].
  simpl in *. congruence.
Qed.

Lemma tool_generate_users tool req σ :
  users_db (snd (tool_generate tool req σ)) = users_db σ.
Proof.
  unfold tool_generate, bind, gets.
  destruct (require_login req σ) as [redirect|username]; [done|].
  apply check_usage_limit_users.
Qed.

Lemma login_post_users fresh username password σ :
  users_db (snd (login_post fresh username password σ)) = users_db σ.
Proof.
  unfold login_post, bind, gets.
  destruct (users_db σ !! username) as [[stored pro]|]; [|done].
  by destruct (decide (stored = password)).
Qed.

Lemma logout_users req σ : users_db (snd (logout req σ)) = users_db σ.
Proof.
  unfold logout, bind, delete_session.
  destruct (cookies req !! "session_id") as [sid|]; [|done].
  by destruct (session_entry (Some sid) σ).
Qed.

Lemma create_checkout_session_users environ create req σ :
  users_db (snd (create_checkout_session environ create req σ)) = users_db σ.
Proof.
  unfold create_checkout_session, bind, gets.
  destruct (require_login req σ) as [redirect|username]; [done|].
  destruct (environ !! "STRIPE_PRICE_ID") as [price_id|]; [|done].
  simpl. by destruct (create _).
Qed.

(** ** Entitlement *)

Lemma set_entitlement_paid_absent name db :
  db !! name = None → set_entitlement_paid (Some name) db = db.
Proof.
  intros Hn. unfold set_entitlement_paid. rewrite Hn. by destruct (str_truthy name).
Qed.

Lemma set_entitlement_paid_present name db r :
  name ≠ "" → db !! name = Some r →
  set_entitlement_paid (Some name) db = <[name := paid_record r]> db.
Proof.
  intros Hne Hr. unfold set_entitlement_paid, str_truthy.
  by rewrite bool_decide_true, Hr.
Qed.

Lemma set_entitlement_paid_falsy customer_email db :
  truthy customer_email = false → set_entitlement_paid customer_email db = db.
Proof.
  unfold set_entitlement_paid. destruct customer_email as [name|]; [|done].
  simpl. by intros ->.
Qed.

Lemma set_entitlement_paid_idem customer_email db :
  set_entitlement_paid customer_email (set_entitlement_paid customer_email db)
  = set_entitlement_paid customer_email db.
Proof.
  destruct customer_email as [name|]; [|done].
  destruct (decide (name = "")) as [->|Hne]; [done|].
  destruct (db !! name) as [r|] eqn:Hr.
  - rewrite (set_entitlement_paid_present _ _ _ Hne Hr).
    rewrite (set_entitlement_paid_present _ _ (paid_record r) Hne)
      by apply lookup_insert_eq.
    by rewrite insert_insert_eq.
  - by rewrite !(set_entitlement_paid_absent _ _ Hr).
Qed.

(** Every record is either left as it is or marked paid; none is removed,
    none has its password changed, none is marked free. *)
Lemma set_entitlement_paid_lookup customer_email db u r :
  db !! u = Some r →
  set_entitlement_paid customer_email db !! u = Some r
  ∨ set_entitlement_paid customer_email db !! u = Some (paid_record r).
Proof.
  intros Hu. destruct customer_email as [name|]; [|by left].
  unfold set_entitlement_paid. destruct (str_truthy name); [|by left].
  destruct (db !! name) as [r'|] eqn:Hr; [|by left].
  destruct (decide (name = u)) as [->|Hne].
  - right. rewrite Hu in Hr. injection Hr as <-. apply lookup_insert_eq.
  - left. by rewrite lookup_insert_ne.
Qed.

Lemma is_user_pro_paid name r σ :
  name ≠ "" →
  users_db σ !! name = Some (paid_record r) →
  is_user_pro (Some name) σ = true.
Proof.
  intros Hne Hr. unfold is_user_pro, str_truthy.
  by rewrite bool_decide_true, Hr.
Qed.

(** C4. Marking the same identity paid twice gives the state that marking
    it once gives, and [is_user_pro] answers true after either; marking a
    name that is not in the registry changes nothing.  The operation is a
    total function: there is no error case. *)
Theorem set_entitlement_paid_idempotent name σ :
  let mark := set_users_db (set_entitlement_paid (Some name)) in
  mark (mark σ) = mark σ
  ∧ (name ≠ "" → is_Some (users_db σ !! name) →
     is_user_pro (Some name) (mark σ) = true
     ∧ is_user_pro (Some name) (mark (mark σ)) = true)
  ∧ (users_db σ !! name = None → mark σ = σ).
Proof.
  intros mark.
  assert (Hidem : mark (mark σ) = mark σ).
  { unfold mark, set_users_db. cbn [users_db sessions stripe_calls].
    by rewrite set_entitlement_paid_idem. }
  split; [done|]. split.
  - intros Hne [r Hr]. rewrite Hidem.
    assert (is_user_pro (Some name) (mark σ) = true); [|done].
    apply (is_user_pro_paid name r); [done|].
    unfold mark, set_users_db. cbn [users_db].
    rewrite (set_entitlement_paid_present _ _ _ Hne Hr). apply lookup_insert_eq.
  - intros Hn. unfold mark, set_users_db.
    rewrite (set_entitlement_paid_absent _ _ Hn). by destruct σ.
Qed.

Lemma set_entitlement_paid_idempotent_witness :
  is_user_pro (Some "alice@example.com")
    (set_users_db (set_entitlement_paid (Some "alice@example.com")) demo_state) = true
  ∧ is_user_pro (Some "alice@example.com")
      (set_users_db (set_entitlement_paid (Some "alice@example.com"))
         (set_users_db (set_entitlement_paid (Some "alice@example.com")) demo_state))
    = true.
Proof.
  apply (proj1 (proj2 (set_entitlement_paid_idempotent "alice@example.com" demo_state)));
    vm_compute; [discriminate | eauto].
Defined.

(** ** The webhook *)

Section Webhook.

Variable environ : gmap string string.
Variable construct_event : string → option string → option string → construct_result.

(** A payload that does not parse and a signature that does not verify are
    both answered with status 400, and nothing is written. *)
Lemma stripe_webhook_rejects req σ :
  constructed_event environ construct_event req = RaisedValueError
  ∨ constructed_event environ construct_event req = RaisedSignatureVerificationError →
  ∃ msg,
    stripe_webhook environ construct_event req σ =
      (Returned (JSONResponse [("error", JString msg)] 400), σ).
Proof.
  unfold constructed_event, stripe_webhook. intros [H|H]; rewrite H; eauto.
Qed.

(** Status 400 is returned only for those two failures. *)
Lemma stripe_webhook_400_only_on_failure req σ r :
  fst (stripe_webhook environ construct_event req σ) = Returned r →
  status_of r = 400 →
  constructed_event environ construct_event req = RaisedValueError
  ∨ constructed_event environ construct_event req = RaisedSignatureVerificationError.
Proof.
  unfold constructed_event, stripe_webhook.
  destruct (construct_event _ _ _) as [ev| |]; [|by left|by right].
  destruct (decide (ev_type ev = "checkout.session.completed")).
  - destruct (purchaser_email (ev_data_object ev)); simpl; [done|].
    intros [= <-]. done.
  - simpl. intros [= <-]. done.
Qed.

(** Whenever the handler returns at all, the status is 200 or 400. *)
Lemma stripe_webhook_status req σ r :
  fst (stripe_webhook environ construct_event req σ) = Returned r →
  status_of r = 200 ∨ status_of r = 400.
Proof.
  unfold stripe_webhook.
  destruct (construct_event _ _ _) as [ev| |];
    [|simpl; intros [= <-]; by right..].
  destruct (decide (ev_type ev = "checkout.session.completed")).
  - destruct (purchaser_email (ev_data_object ev)); simpl; [done|].
    intros [= <-]. by left.
  - simpl. intros [= <-]. by left.
Qed.

(** The code's email expression against the spec's reading of it: when the
    expression evaluates, it is truthy exactly on the spec's email; when it
    raises, the spec finds no email. *)
Lemma purchaser_email_event_email session :
  match purchaser_email session with
  | inr x => event_email session = (if truthy x then x else None)
  | inl _ => event_email session = None
  end.
Proof.
  unfold purchaser_email, event_email, customer_details_email, present.
  destruct session as [[| |s] [| |[[| |e]]]]; cbn -[str_truthy];
    try destruct (str_truthy s) eqn:Hs; cbn -[str_truthy]; rewrite ?Hs;
    try destruct (str_truthy e) eqn:He; cbn -[str_truthy]; rewrite ?He; done.
Qed.

(** The handler raises exactly on a "checkout completed" event whose
    [customer_email] is missing, [null] or empty while [customer_details]
    is [null]. *)
Lemma stripe_webhook_uncaught_iff req σ :
  (∃ e, fst (stripe_webhook environ construct_event req σ) = Uncaught e)
  ↔ ∃ ev, constructed_event environ construct_event req = Constructed ev
          ∧ ev_type ev = "checkout.session.completed"
          ∧ truthy (field_get (customer_email (ev_data_object ev))) = false
          ∧ customer_details (ev_data_object ev) = Null.
Proof.
  unfold constructed_event, stripe_webhook. split.
  - intros [e He].
    destruct (construct_event _ _ _) as [ev| |]; [|done..].
    exists ev. split; [done|].
    destruct (decide (ev_type ev = "checkout.session.completed")); [|done].
    split; [done|]. revert He. unfold purchaser_email, customer_details_email.
    destruct (truthy (field_get (customer_email (ev_data_object ev)))); [done|].
    by destruct (customer_details (ev_data_object ev)).
  - intros (ev & -> & Hty & Hfalsy & Hnull).
    rewrite decide_True by done.
    unfold purchaser_email, customer_details_email. rewrite Hfalsy, Hnull. eauto.
Qed.


(** C6. On a valid "checkout.session.completed" event the purchaser's email
    is [customer_email] when present, else [customer_details.email]; when
    that email is the name of a registered identity, that identity's record
    is marked paid, and in every other case the registry is unchanged.  The
    sessions are never touched. *)
Theorem checkout_completed_marks_purchaser req σ ev :
  constructed_event environ construct_event req = Constructed ev →
  ev_type ev = "checkout.session.completed" →
  let σ' := snd (stripe_webhook environ construct_event req σ) in
  sessions σ' = sessions σ
  ∧ users_db σ' =
      match event_email (ev_data_object ev) with
      | Some e =>
          match users_db σ !! e with
          | Some r => <[e := paid_record r]> (users_db σ)
          | None => users_db σ
          end
      | None => users_db σ
      end.
Proof.
  unfold constructed_event. intros Hev Hty. unfold stripe_webhook.
  rewrite Hev, decide_True by done.
  pose proof (purchaser_email_event_email (ev_data_object ev)) as Hspec.
  destruct (purchaser_email (ev_data_object ev)) as [exn|x]; rewrite Hspec.
  - done.
  - cbn. split; [done|].
    destruct (truthy x) eqn:Hx.
    + destruct x as [name|]; [|done]. simpl in Hx.
      unfold set_entitlement_paid. rewrite Hx. by destruct (users_db σ !! name).
    + by apply set_entitlement_paid_falsy.
Qed.

End Webhook.

Lemma checkout_completed_marks_purchaser_witness :
  sessions (snd (stripe_webhook ∅ (delivers demo_event) demo_webhook_request demo_state))
  = sessions demo_state
  ∧ users_db (snd (stripe_webhook ∅ (delivers demo_event) demo_webhook_request demo_state))
    = {["alice@example.com" := UserRecord "pw" (Some true)]}.
Proof.
  pose proof (checkout_completed_marks_purchaser ∅ (delivers demo_event)
                demo_webhook_request demo_state demo_event eq_refl eq_refl) as [Hs Hu].
  split; [exact Hs|]. rewrite Hu. vm_compute. reflexivity.
Defined.

(** C3. A validly signed "checkout.session.completed" event whose session
    has [customer_email] and [customer_details] both [null] is not
    acknowledged: the fallback lookup is made on [None], the exception
    leaves the handler, and no response with status 200 or 400 is built. *)
Theorem stripe_webhook_null_customer_details environ req σ :
  stripe_webhook environ (delivers null_details_event) req σ =
    (Uncaught (AttributeError "'NoneType' object has no attribute 'get'"), σ).
Proof. reflexivity. Qed.

(** ** Checkout *)

(** C9. When [STRIPE_PRICE_ID] is not in the environment,
    [create_checkout_session] sends nothing to the processor and changes
    nothing, and a logged-in caller gets the structured status-500 answer
    "PRICE_ID is missing in environment". *)
Theorem create_checkout_session_missing_price_id environ create req σ username :
  environ !! "STRIPE_PRICE_ID" = None →
  require_login req σ = inr username →
  create_checkout_session environ create req σ =
    (JSONResponse [("error", JString "PRICE_ID is missing in environment")] 500, σ)
  ∧ stripe_calls (snd (create_checkout_session environ create req σ)) = stripe_calls σ.
Proof.
  intros Hprice Hlogin. unfold create_checkout_session, bind, gets.
  by rewrite Hlogin, Hprice.
Qed.

Lemma create_checkout_session_missing_price_id_witness :
  create_checkout_session ∅ demo_create demo_request demo_state =
    (JSONResponse [("error", JString "PRICE_ID is missing in environment")] 500,
     demo_state)
  ∧ stripe_calls (snd (create_checkout_session ∅ demo_create demo_request demo_state))
    = [].
Proof.
  apply (create_checkout_session_missing_price_id ∅ demo_create demo_request
           demo_state "alice@example.com"); vm_compute; reflexivity.
Defined.

(** Without a price reference the processor is not contacted, whoever asks. *)
Lemma create_checkout_session_no_call environ create req σ :
  environ !! "STRIPE_PRICE_ID" = None →
  snd (create_checkout_session environ create req σ) = σ.
Proof.
  intros Hprice. unfold create_checkout_session, bind, gets.
  destruct (require_login req σ); [done|]. by rewrite Hprice.
Qed.

(** A caller that is not logged in is sent to ["/"] by the guard before the
    configuration is read. *)
Lemma create_checkout_session_not_logged_in environ create req σ redirect :
  require_login req σ = inl redirect →
  create_checkout_session environ create req σ = (redirect, σ).
Proof.
  intros Hlogin. unfold create_checkout_session, bind, gets. by rewrite Hlogin.
Qed.

(** With a price reference and a logged-in caller, exactly one request goes
    to the processor. *)
Lemma create_checkout_session_one_call environ create req σ username price_id :
  environ !! "STRIPE_PRICE_ID" = Some price_id →
  require_login req σ = inr username →
  ∃ params,
    stripe_calls (snd (create_checkout_session environ create req σ))
    = (stripe_calls σ ++ [params])%list
    ∧ line_items params = [(price_id, 1)].
Proof.
  intros Hprice Hlogin. unfold create_checkout_session, bind, gets.
  rewrite Hlogin, Hprice. eexists. simpl.
  destruct (create _); simpl; split; reflexivity.
Qed.

(** ** Entitlement is monotone *)

Lemma stripe_webhook_users environ construct_event req σ :
  ∃ x, users_db (snd (stripe_webhook environ construct_event req σ))
       = set_entitlement_paid x (users_db σ).
Proof.
  unfold stripe_webhook.
  destruct (construct_event _ _ _) as [ev| |]; [|by exists None..].
  destruct (decide (ev_type ev = "checkout.session.completed")); [|by exists None].
  destruct (purchaser_email (ev_data_object ev)) as [exn|x]; [by exists None|].
  by exists x.
Qed.

(** One request leaves every record as it was or marks it paid. *)
Lemma step_record environ create construct_event o σ u r :
  users_db σ !! u = Some r →
  users_db (step environ create construct_event o σ) !! u = Some r
  ∨ users_db (step environ create construct_event o σ) !! u = Some (paid_record r).
Proof.
  intros Hu. destruct o as [name p|t name p|req|tool req|req|req]; simpl.
  - left. destruct (users_db σ !! name) as [r'|] eqn:Hn.
    + by rewrite (register_post_existing_name _ _ _ _ Hn).
    + rewrite (register_post_fresh_name _ _ _ Hn). simpl.
      rewrite lookup_insert_ne; [done|]. intros ->. by rewrite Hu in Hn.
  - left. by rewrite login_post_users.
  - left. by rewrite logout_users.
  - left. by rewrite tool_generate_users.
  - left. by rewrite create_checkout_session_users.
  - destruct (stripe_webhook_users environ construct_event req σ) as [x ->].
    by apply set_entitlement_paid_lookup.
Qed.

Lemma paid_record_fixed r : is_pro r = Some true → paid_record r = r.
Proof. destruct r as [p f]. simpl. by intros ->. Qed.

(** A paid record survives any sequence of requests unchanged. *)
Lemma run_ops_keeps_paid environ create construct_event os σ u r :
  users_db σ !! u = Some r →
  is_pro r = Some true →
  users_db (run_ops environ create construct_event os σ) !! u = Some r.
Proof.
  intros Hu Hpaid. revert σ Hu. unfold run_ops.
  induction os as [|o os IH]; intros σ Hu; [done|].
  simpl. apply IH.
  destruct (step_record environ create construct_event o σ u r Hu) as [H|H];
    [done | by rewrite H, paid_record_fixed].
Qed.

Lemma is_user_pro_true u σ :
  is_user_pro (Some u) σ = true ↔
  u ≠ "" ∧ ∃ r, users_db σ !! u = Some r ∧ is_pro r = Some true.
Proof.
  unfold is_user_pro, str_truthy.
  destruct (decide (u = "")) as [->|Hne].
  - rewrite bool_decide_false by (intros ?; done). split; [done | by intros [? _]].
  - rewrite bool_decide_true by done.
    destruct (users_db σ !! u) as [[p [[|]|]]|]; simpl;
      split; try done; try (by intros [_ (r & [= <-] & ?)]);
      try (by intros [_ (r & ? & _)]).
    intros _. split; [done|]. eauto.
Qed.

(** The resolver's view: once [is_user_pro] answers true for a name it
    answers true after every later request. *)
Lemma is_user_pro_monotone environ create construct_event os σ u :
  is_user_pro (Some u) σ = true →
  is_user_pro (Some u) (run_ops environ create construct_event os σ) = true.
Proof.
  intros (Hne & r & Hu & Hpaid)%is_user_pro_true. apply is_user_pro_true.
  split; [done|]. exists r. split; [|done]. by apply run_ops_keeps_paid.
Qed.

(** C10. Once a record's [is_pro] flag is true, no sequence of requests
    (registrations, logins, logouts, tool calls, checkouts, webhooks) ever
    makes it false again: each request leaves a record as it was or writes
    true into its flag, and a registration writes only under a new name. *)
Theorem entitlement_monotone environ create construct_event os σ u r :
  users_db σ !! u = Some r →
  is_pro r = Some true →
  ∃ r', users_db (run_ops environ create construct_event os σ) !! u = Some r'
        ∧ is_pro r' = Some true
        ∧ password r' = password r.
Proof.
  intros Hu Hpaid. exists r. split; [|done].
  by apply run_ops_keeps_paid.
Qed.

Lemma entitlement_monotone_witness :
  ∃ r', users_db (run_ops ∅ demo_create (delivers demo_event) demo_ops demo_paid_state)
          !! "alice@example.com" = Some r'
        ∧ is_pro r' = Some true
        ∧ password r' = "pw".
Proof.
  apply (entitlement_monotone ∅ demo_create (delivers demo_event) demo_ops
           demo_paid_state "alice@example.com" (UserRecord "pw" (Some true)));
    vm_compute; reflexivity.
Defined.

(** ** The round trip of the specification, run on the model *)

Example round_trip :
  let σ0 := State ∅ ∅ [] in
  let σ1 := snd (register_post "alice@example.com" "pw" σ0) in
  let σ2 := snd (login_post "T" "alice@example.com" "pw" σ1) in
  let req := Request {["session_id" := "T"]} ∅ "" in
  let '(decisions, σ3) := check_usage_limit_n 4 req "alice@example.com" "sora" σ2 in
  let '(ack, σ4) := stripe_webhook ∅ (delivers demo_event) demo_webhook_request σ3 in
  decisions = [None; None; None; Some (limit_page "alice@example.com" "sora")]
  ∧ ack = Returned acknowledged
  ∧ is_user_pro (Some "alice@example.com") σ4 = true
  ∧ fst (check_usage_limit req "alice@example.com" "sora" σ4) = None
  ∧ fst (get_usage_count (Some "T") "sora" σ4) = 3.
Proof. vm_compute. repeat split. Qed.

(** * Further properties of the code *)

(** ** Session store *)

(** X1. A new session resolves to its user with every counter at zero; the
    other tokens and the registry are not touched.  An entry already stored
    under the token is replaced. *)
Theorem create_session_resolves session_id username σ :
  session_id ≠ "" →
  let σ' := snd (create_session session_id username σ) in
  fst (create_session session_id username σ) = session_id
  ∧ get_username_from_session (Some session_id) σ' = Some username
  ∧ (∀ tool, get_usage_count (Some session_id) tool σ' = (0, σ'))
  ∧ (∀ other, other ≠ session_id → sessions σ' !! other = sessions σ !! other)
  ∧ users_db σ' = users_db σ.
Proof.
  intros Hne σ'.
  assert (He : session_entry (Some session_id) σ'
               = Some (SessionDict (SessionFields (Some username) (Some ∅)))).
  { by apply session_entry_set_sessions_eq. }
  split; [done|]. split; [|split; [|split]].
  - unfold get_username_from_session. by rewrite He.
  - intros tool. rewrite (get_usage_count_dict _ _ _ _ He).
    unfold dict_count. simpl. by rewrite lookup_empty.
  - intros other Hother. unfold σ'. simpl. by rewrite lookup_insert_ne.
  - done.
Qed.

Lemma create_session_resolves_witness :
  get_username_from_session (Some "tok9")
    (snd (create_session "tok9" "bob@example.com" demo_state)) = Some "bob@example.com"
  ∧ sessions (snd (create_session "tok9" "bob@example.com" demo_state)) !! "tok"
    = sessions demo_state !! "tok".
Proof.
  pose proof (create_session_resolves "tok9" "bob@example.com" demo_state)
    as (_ & Hu & _ & Ho & _); [discriminate|].
  split; [exact Hu | apply Ho; discriminate].
Defined.

(** X2. Reading a session twice is the same as reading it once: the upgrade of
    an old-format entry happens on the first read, keeps the owner, and
    touches no other token. *)
Theorem get_session_data_stable session_id σ :
  let d := fst (get_session_data session_id σ) in
  let σ' := snd (get_session_data session_id σ) in
  get_session_data session_id σ' = (d, σ')
  ∧ get_username_from_session session_id σ' = get_username_from_session session_id σ
  ∧ d = dict_view <$> session_entry session_id σ
  ∧ (∀ other, Some other ≠ session_id → sessions σ' !! other = sessions σ !! other)
  ∧ users_db σ' = users_db σ.
Proof.
  intros d σ'. unfold d, σ'. clear d σ'.
  destruct (session_entry session_id σ) as [[d|name]|] eqn:He.
  - destruct session_id as [sid|]; [|done].
    rewrite (get_session_data_dict _ _ _ He). cbn [fst snd].
    rewrite (get_session_data_dict _ _ _ He). done.
  - destruct session_id as [sid|]; [|done].
    pose proof He as [Hne _]%session_entry_Some.
    rewrite (get_session_data_legacy _ _ _ He). cbn [fst snd].
    set (d0 := SessionFields (Some name) (Some ∅)).
    assert (He' : session_entry (Some sid) (set_sessions <[sid := SessionDict d0]> σ)
                  = Some (SessionDict d0)) by by apply session_entry_set_sessions_eq.
    split; [by apply get_session_data_dict|].
    split; [unfold get_username_from_session; by rewrite He, He'|].
    split; [done|]. split; [|done].
    intros other Hother. unfold set_sessions. cbn [sessions].
    rewrite lookup_insert_ne; [done|]. by intros ->.
  - rewrite (get_session_data_unknown _ _ He). cbn [fst snd].
    by rewrite (get_session_data_unknown _ _ He).
Qed.

(** ** Usage metering *)

(** What [get_usage_count] reads: the counter of the entry read as a dict,
    zero when the token resolves to nothing. *)
Lemma get_usage_count_read session_id tool σ :
  fst (get_usage_count session_id tool σ)
  = match session_entry session_id σ with
    | Some e => dict_count tool (dict_view e)
    | None => 0
    end.
Proof.
  destruct (session_entry session_id σ) as [[d|name]|] eqn:He.
  - destruct session_id as [sid|]; [|done].
    by rewrite (get_usage_count_dict _ _ _ _ He).
  - destruct session_id as [sid|]; [|done].
    rewrite (get_usage_count_legacy _ _ _ _ He). simpl.
    unfold dict_count. simpl. by rewrite lookup_empty.
  - unfold get_usage_count, bind. by rewrite (get_session_data_unknown _ _ He).
Qed.

(** Reading and bumping a counter when there is no usable entry. *)
Lemma usage_no_entry session_id tool σ :
  session_entry session_id σ = None
  ∨ session_entry session_id σ = Some (SessionDict (SessionFields None None)) →
  get_usage_count session_id tool σ = (0, σ)
  ∧ increment_usage session_id tool σ = (0, σ).
Proof.
  intros [He|He].
  - split.
    + unfold get_usage_count, bind. by rewrite (get_session_data_unknown _ _ He).
    + unfold increment_usage. destruct session_id as [sid|]; [|done].
      destruct (str_truthy sid); [|done].
      unfold bind. by rewrite (get_session_data_unknown _ _ He).
  - destruct session_id as [sid|]; [|done]. split.
    + by rewrite (get_usage_count_dict _ _ _ _ He).
    + unfold increment_usage. destruct (str_truthy sid); [|done].
      unfold bind. by rewrite (get_session_data_dict _ _ _ He).
Qed.

(** X3. For a token that resolves to nothing (no cookie, the empty string, a
    token not in the store) and for an entry that is the empty dict, the
    counter reads zero, [increment_usage] returns zero and writes nothing,
    so the counter still reads zero afterwards however often it is called. *)
Theorem usage_of_unknown_session session_id tool σ :
  session_entry session_id σ = None
  ∨ session_entry session_id σ = Some (SessionDict (SessionFields None None)) →
  get_usage_count session_id tool σ = (0, σ)
  ∧ increment_usage session_id tool σ = (0, σ)
  ∧ get_usage_count session_id tool (snd (increment_usage session_id tool σ)) = (0, σ).
Proof.
  intros He. destruct (usage_no_entry session_id tool σ He) as [Hg Hi].
  rewrite Hi. done.
Qed.

Lemma usage_of_unknown_session_witness :
  get_usage_count (Some "stale") "sora" demo_state = (0, demo_state)
  ∧ increment_usage (Some "stale") "sora" demo_state = (0, demo_state).
Proof.
  pose proof (usage_of_unknown_session (Some "stale") "sora" demo_state)
    as (Hg & Hi & _); [left; vm_compute; reflexivity|].
  by split.
Defined.

(** X4. A free caller whose cookie resolves to nothing is let through every
    time and nothing is ever counted. *)
Theorem check_usage_limit_unknown_session req u tool σ :
  is_user_pro (Some u) σ = false →
  session_entry (cookies req !! "session_id") σ = None →
  ∀ n : nat, check_usage_limit_n n req u tool σ = (replicate n None, σ).
Proof.
  intros Hfree He.
  assert (Hone : check_usage_limit req u tool σ = (None, σ)).
  { unfold check_usage_limit, bind, gets. rewrite Hfree.
    destruct (usage_no_entry (cookies req !! "session_id") tool σ)
      as [-> Hi]; [by left|].
    change (0 >=? 3) with false. cbv beta iota. by rewrite Hi. }
  induction n as [|n IH]; [done|]. simpl. by rewrite Hone, IH.
Qed.

Lemma check_usage_limit_unknown_session_witness :
  check_usage_limit_n 5 (with_session "stale") "alice@example.com" "sora" demo_state
  = ([None; None; None; None; None], demo_state).
Proof.
  apply (check_usage_limit_unknown_session (with_session "stale") "alice@example.com"
           "sora" demo_state); vm_compute; reflexivity.
Defined.

Lemma check_usage_limit_no_entry req u tool σ :
  is_user_pro (Some u) σ = false →
  session_entry (cookies req !! "session_id") σ = None
  ∨ session_entry (cookies req !! "session_id") σ
    = Some (SessionDict (SessionFields None None)) →
  check_usage_limit req u tool σ = (None, σ).
Proof.
  intros Hfree He. unfold check_usage_limit, bind, gets. rewrite Hfree.
  destruct (usage_no_entry (cookies req !! "session_id") tool σ He)
    as [-> Hi].
  change (0 >=? 3) with false. cbv beta iota. by rewrite Hi.
Qed.

Lemma bump_counts_lookup_ne tool tool' d :
  tool' ≠ tool →
  bump_counts tool d !! tool' = default ∅ (sd_counts d) !! tool'.
Proof.
  intros Hne. unfold bump_counts. rewrite lookup_insert_ne by done.
  case_decide; [done|]. by rewrite lookup_insert_ne.
Qed.

Lemma dict_count_bumped_ne tool tool' d :
  tool' ≠ tool →
  dict_count tool' (dict_view (bumped tool d)) = dict_count tool' d.
Proof.
  intros Hne. unfold dict_count, bumped. simpl.
  rewrite (bump_counts_lookup_ne _ _ _ Hne).
  destruct (sd_counts d); simpl; [done|]. by rewrite lookup_empty.
Qed.

(** The only write [check_usage_limit] ever makes: the entry under the
    request's cookie is replaced by its bumped dict. *)
Lemma check_usage_limit_effect req u tool σ :
  snd (check_usage_limit req u tool σ) = σ
  ∨ ∃ sid e,
      cookies req !! "session_id" = Some sid
      ∧ session_entry (Some sid) σ = Some e
      ∧ dict_count tool (dict_view e) < 3
      ∧ snd (check_usage_limit req u tool σ)
        = set_sessions <[sid := bumped tool (dict_view e)]> σ.
Proof.
  destruct (is_user_pro (Some u) σ) eqn:Hpro.
  { left. by rewrite check_usage_limit_pro. }
  destruct (session_entry (cookies req !! "session_id") σ) as [[d|name]|] eqn:He;
    [| |left; by rewrite check_usage_limit_no_entry by auto].
  - destruct (cookies req !! "session_id") as [sid|] eqn:Hc; [|done].
    destruct (Z_lt_le_dec (dict_count tool d) 3) as [Hlt|Hge].
    + destruct (dict_truthy d) eqn:Ht.
      * right. exists sid, (SessionDict d).
        by rewrite (check_usage_limit_below_ceiling req sid u tool σ d).
      * left. rewrite check_usage_limit_no_entry; [done..|].
        right. rewrite Hc, He. by destruct d as [[?|] [?|]].
    + left. by rewrite (check_usage_limit_at_ceiling req sid u tool σ d).
  - destruct (cookies req !! "session_id") as [sid|] eqn:Hc; [|done].
    right. exists sid, (SessionLegacy name).
    rewrite (check_usage_limit_legacy req sid u tool σ name) by done.
    split; [done|]. split; [done|]. split.
    { unfold dict_count. simpl. by rewrite lookup_empty. }
    unfold set_sessions. cbn [fst snd users_db sessions stripe_calls dict_view].
    by rewrite insert_insert_eq.
Qed.

(** X5. Counters are kept per session and per tool: a call for one tool under
    one cookie changes no counter of another tool or of another session. *)
Theorem check_usage_limit_other_counters req u tool σ sid' tool' :
  cookies req !! "session_id" ≠ Some sid' ∨ tool' ≠ tool →
  fst (get_usage_count (Some sid') tool' (snd (check_usage_limit req u tool σ)))
  = fst (get_usage_count (Some sid') tool' σ).
Proof.
  intros Hother. rewrite !get_usage_count_read.
  destruct (check_usage_limit_effect req u tool σ) as [->|(sid & e & Hc & He & _ & ->)];
    [done|].
  destruct (decide (sid = sid')) as [->|Hne].
  - destruct Hother as [Hcookie|Htool]; [done|].
    pose proof He as [Hne _]%session_entry_Some.
    rewrite session_entry_set_sessions_eq, He by done.
    by apply dict_count_bumped_ne.
  - unfold session_entry, set_sessions. cbn [sessions].
    by rewrite lookup_insert_ne.
Qed.

Lemma check_usage_limit_other_counters_witness :
  fst (get_usage_count (Some "tok") "runway"
         (snd (check_usage_limit demo_request "alice@example.com" "sora" demo_state)))
  = fst (get_usage_count (Some "tok") "runway" demo_state)
  ∧ fst (get_usage_count (Some "tok") "sora"
           (snd (check_usage_limit demo_request "alice@example.com" "sora" demo_state)))
    = 1.
Proof.
  split; [|vm_compute; reflexivity].
  apply (check_usage_limit_other_counters demo_request "alice@example.com" "sora"
           demo_state "tok" "runway").
  right. discriminate.
Defined.

(** X6. Using a tool logs nobody in or out: after a tool request every token
    resolves to the user it resolved to before, and neither the registry nor
    the processor log has changed. *)
Theorem tool_generate_keeps_owners tool req σ :
  let σ' := snd (tool_generate tool req σ) in
  users_db σ' = users_db σ
  ∧ stripe_calls σ' = stripe_calls σ
  ∧ ∀ sid', get_username_from_session sid' σ' = get_username_from_session sid' σ.
Proof.
  intros σ'. unfold σ', tool_generate, bind, gets.
  destruct (require_login req σ) as [redirect|u]; [done|].
  destruct (check_usage_limit_effect req u tool σ) as [->|(sid & e & Hc & He & _ & ->)];
    [done|].
  split; [done|]. split; [done|]. intros [sid'|]; [|done].
  unfold get_username_from_session.
  destruct (decide (sid = sid')) as [->|Hne].
  - pose proof He as [Hne _]%session_entry_Some.
    rewrite session_entry_set_sessions_eq, He by done. by destruct e.
  - unfold session_entry, set_sessions. cbn [sessions].
    by rewrite lookup_insert_ne.
Qed.

(** ** Route guards *)

Lemma require_login_inr req σ u :
  require_login req σ = inr u ↔
  u ≠ "" ∧ ∃ sid e,
    cookies req !! "session_id" = Some sid
    ∧ session_entry (Some sid) σ = Some e
    ∧ sd_username (dict_view e) = Some u.
Proof.
  unfold require_login, get_current_username, get_username_from_session.
  split.
  - destruct (cookies req !! "session_id") as [sid|] eqn:Hc; [|done].
    destruct (session_entry (Some sid) σ) as [e|] eqn:He; [|done].
    assert (Hname : sd_username (dict_view e)
                    = match e with
                      | SessionDict d => sd_username d
                      | SessionLegacy username => Some username
                      end) by by destruct e.
    rewrite <- Hname.
    destruct (sd_username (dict_view e)) as [name|] eqn:Hview; [|done].
    unfold str_truthy. case_bool_decide as Hn; [|done].
    intros [= <-]. split; [done|]. by exists sid, e.
  - intros (Hu & sid & e & -> & -> & Hname).
    destruct e as [d|name]; cbn [dict_view sd_username] in Hname; cbv beta iota;
      [rewrite Hname | injection Hname as ->];
      unfold str_truthy; by rewrite bool_decide_true.
Qed.

Lemma require_login_inl req σ r :
  require_login req σ = inl r → r = login_required.
Proof.
  unfold require_login.
  destruct (get_current_username req σ) as [name|]; [|by intros [= <-]].
  destruct (str_truthy name); [done | by intros [= <-]].
Qed.

(** X7. Who counts as logged in: the cookie holds a non-empty token that is in
    the store, and the entry carries a non-empty username.  In every other
    case (no cookie, empty or unknown token, entry without a name or with
    the empty name) the guard answers the 302 redirect to ["/"]. *)
Theorem require_login_characterised req σ :
  (∀ u, require_login req σ = inr u ↔
        u ≠ "" ∧ ∃ sid, cookies req !! "session_id" = Some sid ∧ sid ≠ ""
                   ∧ (sessions σ !! sid = Some (SessionLegacy u)
                      ∨ ∃ d, sessions σ !! sid = Some (SessionDict d)
                             ∧ sd_username d = Some u))
  ∧ (∀ r, require_login req σ = inl r → r = login_required).
Proof.
  split.
  - intros u. rewrite require_login_inr. split.
    + intros (Hu & sid & e & Hc & [Hsid He]%session_entry_Some & Hname).
      split; [done|]. exists sid. split; [done|]. split; [done|].
      destruct e as [d|name]; simpl in Hname.
      * right. by exists d.
      * left. congruence.
    + intros (Hu & sid & Hc & Hsid & [He|(d & He & Hname)]).
      * split; [done|]. exists sid, (SessionLegacy u).
        split; [done|]. split; [by apply session_entry_Some|done].
      * split; [done|]. exists sid, (SessionDict d).
        split; [done|]. split; [by apply session_entry_Some|done].
  - apply require_login_inl.
Qed.

(** X8. No guarded POST route does anything for a caller who is not logged in:
    the tool routes, the scene route and the checkout route all answer the
    redirect to ["/"], count nothing and send nothing to the processor,
    whatever the configuration. *)
Theorem guarded_routes_reject_anonymous environ create req σ r :
  require_login req σ = inl r →
  (∀ tool, tool_generate tool req σ = (Some login_required, σ))
  ∧ (∀ idea, tool_scene_generate req idea σ = (login_required, σ))
  ∧ create_checkout_session environ create req σ = (login_required, σ).
Proof.
  intros Hr.
  pose proof (require_login_inl req σ r Hr) as ->.
  unfold tool_generate, tool_scene_generate, create_checkout_session, bind, gets.
  by rewrite Hr.
Qed.

Lemma guarded_routes_reject_anonymous_witness :
  tool_scene_generate (with_session "stale") "a fox" demo_state
  = (login_required, demo_state)
  ∧ create_checkout_session {["STRIPE_PRICE_ID" := "price_1"]} demo_create
      (with_session "stale") demo_state = (login_required, demo_state).
Proof.
  pose proof (guarded_routes_reject_anonymous {["STRIPE_PRICE_ID" := "price_1"]}
                demo_create (with_session "stale") demo_state login_required eq_refl)
    as (_ & Hscene & Hcheckout).
  split; [apply Hscene | exact Hcheckout].
Defined.

(** ** The scene route *)

(** X9. POST [/tool/scene] for a logged-in caller.  A paid caller always gets
    the page with the prompt built from the idea as typed, and nothing is
    counted.  A free caller gets the limit page once the "scene" counter of
    the session reads 3 or more, and nothing is written; below that the
    page is returned and the counter is one higher afterwards. *)
Theorem tool_scene_generate_logged_in req idea σ u :
  require_login req σ = inr u →
  let session_id := cookies req !! "session_id" in
  let k := fst (get_usage_count session_id "scene" σ) in
  let page :=
    TemplateResponse "tool_scene.html"
      [("generated_prompt", scene_prompt idea); ("video_idea", idea); ("username", u)] in
  if is_user_pro (Some u) σ then tool_scene_generate req idea σ = (page, σ)
  else if k >=? 3 then tool_scene_generate req idea σ = (limit_page u "scene", σ)
  else fst (tool_scene_generate req idea σ) = page
       ∧ fst (get_usage_count session_id "scene" (snd (tool_scene_generate req idea σ)))
         = k + 1.
Proof.
  intros Hlogin session_id k page.
  pose proof Hlogin as (Hu & sid & e & Hc & He & Hname)%require_login_inr.
  pose proof He as [Hsid _]%session_entry_Some.
  unfold tool_scene_generate, bind, gets. rewrite Hlogin.
  destruct (is_user_pro (Some u) σ) eqn:Hpro.
  { by rewrite check_usage_limit_pro. }
  unfold k, session_id. rewrite Hc, get_usage_count_read, He.
  destruct e as [d|name]; cbn [dict_view] in *.
  - destruct (Z.geb_spec (dict_count "scene" d) 3) as [Hge|Hlt].
    + by rewrite (check_usage_limit_at_ceiling req sid u "scene" σ d).
    + rewrite (check_usage_limit_below_ceiling req sid u "scene" σ d);
        [|done..|unfold dict_truthy; by rewrite Hname|done].
      unfold ret. cbn [fst snd]. split; [done|].
      rewrite get_usage_count_read, session_entry_set_sessions_eq by done.
      apply dict_count_bumped.
  - rewrite (check_usage_limit_legacy req sid u "scene" σ name) by done.
    change (dict_count "scene" (SessionFields (Some name) (Some ∅)) >=? 3) with false.
    unfold ret. cbn [fst snd]. split; [done|].
    rewrite get_usage_count_read, session_entry_set_sessions_eq by done.
    apply (dict_count_bumped "scene" (SessionFields (Some name) (Some ∅))).
Qed.

Lemma tool_scene_generate_logged_in_witness :
  fst (tool_scene_generate demo_request "a fox" demo_state)
  = TemplateResponse "tool_scene.html"
      [("generated_prompt", scene_prompt "a fox"); ("video_idea", "a fox");
       ("username", "alice@example.com")]
  ∧ fst (get_usage_count (Some "tok") "scene"
           (snd (tool_scene_generate demo_request "a fox" demo_state))) = 0 + 1.
Proof.
  exact (tool_scene_generate_logged_in demo_request "a fox" demo_state
           "alice@example.com" eq_refl).
Defined.

(** ** Accounts and sessions together *)

Lemma logout_state req σ :
  snd (logout req σ) = snd (delete_session (cookies req !! "session_id") σ).
Proof.
  unfold logout, bind.
  by destruct (delete_session (cookies req !! "session_id") σ) as [[] σ1].
Qed.

(** X10. Register, log in, log out.  A name that is not taken can register; the
    account starts free; logging in with the registered password (and only
    with it) opens a session under which the guard sees the user; after
    logout the same cookie is sent back to ["/"]. *)
Theorem register_login_logout username password fresh σ :
  users_db σ !! username = None →
  username ≠ "" →
  fresh ≠ "" →
  let σ1 := snd (register_post username password σ) in
  let σ2 := snd (login_post fresh username password σ1) in
  let σ3 := snd (logout (with_session fresh) σ2) in
  fst (register_post username password σ) = RedirectResponse "/login" HTTP_302_FOUND []
  ∧ is_user_pro (Some username) σ1 = false
  ∧ (∀ wrong, wrong ≠ password →
       login_post fresh username wrong σ1 = (invalid_login, σ1))
  ∧ fst (login_post fresh username password σ1) = login_redirect fresh
  ∧ require_login (with_session fresh) σ2 = inr username
  ∧ require_login (with_session fresh) σ3 = inl login_required
  ∧ users_db σ3 = users_db σ1.
Proof.
  intros Hnew Hu Hfresh σ1 σ2 σ3.
  assert (E1 : register_post username password σ
               = (RedirectResponse "/login" HTTP_302_FOUND [],
                  set_users_db <[username := UserRecord password (Some false)]> σ))
    by by apply register_post_fresh_name.
  assert (Hrec : users_db σ1 !! username = Some (UserRecord password (Some false))).
  { unfold σ1. rewrite E1. apply lookup_insert_eq. }
  assert (E2 : login_post fresh username password σ1
               = (login_redirect fresh,
                  set_sessions
                    <[fresh := SessionDict (SessionFields (Some username) (Some ∅))]> σ1))
    by by apply (login_post_match _ _ _ _ _ Hrec).
  assert (Hin : require_login (with_session fresh) σ2 = inr username).
  { apply require_login_inr. split; [done|].
    exists fresh, (SessionDict (SessionFields (Some username) (Some ∅))).
    split; [apply lookup_singleton_eq|]. split; [|done].
    unfold σ2. rewrite E2. by apply session_entry_set_sessions_eq. }
  split; [by rewrite E1|]. split.
  { unfold is_user_pro, str_truthy. by rewrite bool_decide_true, Hrec. }
  split.
  { intros wrong Hwrong. apply login_post_no_match.
    intros (r & Hr & Hp). rewrite Hrec in Hr. injection Hr as <-. by symmetry in Hp. }
  split; [by rewrite E2|]. split; [done|]. split.
  - unfold require_login, get_current_username, get_username_from_session, σ3.
    rewrite logout_state.
    change (cookies (with_session fresh) !! "session_id") with (Some fresh).
    by rewrite session_entry_delete.
  - unfold σ3. rewrite logout_users. unfold σ2. by rewrite login_post_users.
Qed.

Lemma register_login_logout_witness :
  require_login (with_session "T")
    (snd (login_post "T" "bob@example.com" "pw2"
            (snd (register_post "bob@example.com" "pw2" demo_state))))
  = inr "bob@example.com"
  ∧ login_post "T" "bob@example.com" "guess"
      (snd (register_post "bob@example.com" "pw2" demo_state))
    = (invalid_login, snd (register_post "bob@example.com" "pw2" demo_state)).
Proof.
  pose proof (register_login_logout "bob@example.com" "pw2" "T" demo_state)
    as (_ & _ & Hwrong & _ & Hin & _); [vm_compute; reflexivity | discriminate..|].
  split; [exact Hin | apply Hwrong; discriminate].
Defined.

(** X11. The free quota belongs to the session, not to the account: whatever the
    counters of a user's other sessions read, a new login starts every
    counter at zero, and the next three calls under the new cookie are let
    through. *)
Theorem new_login_fresh_quota fresh username password tool σ r :
  fresh ≠ "" →
  users_db σ !! username = Some r →
  stored_password r = password →
  is_user_pro (Some username) σ = false →
  let σ' := snd (login_post fresh username password σ) in
  fst (get_usage_count (Some fresh) tool σ') = 0
  ∧ fst (check_usage_limit_n 3 (with_session fresh) username tool σ')
    = [None; None; None].
Proof.
  intros Hfresh Hr Hp Hfree σ'.
  assert (E : σ' = set_sessions
                     <[fresh := SessionDict (SessionFields (Some username) (Some ∅))]> σ).
  { unfold σ'. by rewrite (login_post_match _ _ _ _ _ Hr Hp). }
  assert (He : session_entry (Some fresh) σ'
               = Some (SessionDict (SessionFields (Some username) (Some ∅)))).
  { rewrite E. by apply session_entry_set_sessions_eq. }
  split.
  - rewrite get_usage_count_read, He. unfold dict_count. simpl. by rewrite lookup_empty.
  - destruct (check_usage_limit_n_budget (with_session fresh) fresh username tool
                (lookup_singleton_eq _ _) 3%nat 3%nat σ'
                (SessionFields (Some username) (Some ∅)))
      as (σ'' & d' & Hrun & _); [by rewrite E|done|done|lia| |by rewrite Hrun].
    unfold dict_count. simpl. by rewrite lookup_empty.
Qed.

Lemma new_login_fresh_quota_witness :
  fst (get_usage_count (Some "T2") "sora"
         (snd (login_post "T2" "alice@example.com" "pw" demo_spent_state))) = 0
  ∧ fst (check_usage_limit_n 3 (with_session "T2") "alice@example.com" "sora"
           (snd (login_post "T2" "alice@example.com" "pw" demo_spent_state)))
    = [None; None; None]
  ∧ fst (check_usage_limit demo_request "alice@example.com" "sora" demo_spent_state)
    = Some (limit_page "alice@example.com" "sora").
Proof.
  pose proof (new_login_fresh_quota "T2" "alice@example.com" "pw" "sora"
                demo_spent_state (UserRecord "pw" (Some false))) as [H0 H3];
    [discriminate | vm_compute; reflexivity..|].
  split; [exact H0|]. split; [exact H3 | vm_compute; reflexivity].
Defined.

(** X12. Logout always answers the redirect to ["/"] that clears the cookie, with
    or without a session; it removes at most the session named by the
    cookie and leaves every other session, the registry and the processor
    log alone. *)
Theorem logout_only_that_session req σ :
  let σ' := snd (logout req σ) in
  fst (logout req σ) = RedirectResponse "/" HTTP_302_FOUND [delete_cookie "session_id"]
  ∧ users_db σ' = users_db σ
  ∧ stripe_calls σ' = stripe_calls σ
  ∧ get_current_username req σ' = None
  ∧ ∀ other, cookies req !! "session_id" ≠ Some other →
             sessions σ' !! other = sessions σ !! other.
Proof.
  intros σ'. unfold σ', logout, bind. clear σ'.
  pose proof (session_entry_delete (cookies req !! "session_id") σ) as Hgone.
  destruct (delete_session (cookies req !! "session_id") σ) as [[] σ1] eqn:Hd.
  cbn [fst snd ret] in *.
  assert (Hσ1 : σ1 = σ ∨ ∃ sid, cookies req !! "session_id" = Some sid
                              ∧ σ1 = set_sessions (delete sid) σ).
  { unfold delete_session in Hd.
    destruct (cookies req !! "session_id") as [sid|]; [|left; congruence].
    destruct (session_entry (Some sid) σ); [right; exists sid|left]; split || idtac;
      congruence. }
  split; [done|]. split; [by destruct Hσ1 as [->|(? & _ & ->)]|].
  split; [by destruct Hσ1 as [->|(? & _ & ->)]|]. split.
  - unfold get_current_username, get_username_from_session. by rewrite Hgone.
  - intros other Hother. destruct Hσ1 as [->|(sid & Hc & ->)]; [done|].
    unfold set_sessions. cbn [sessions]. rewrite lookup_delete_ne; [done|].
    intros ->. done.
Qed.

(** ** Checkout *)

(** X13. A logged-in caller with a configured price: exactly one request goes to
    the processor, and it depends on the price alone, not on the caller and
    not on [APP_URL].  A created session is answered with its URL verbatim
    (status 200); any exception of the processor is answered as status 500
    with [error] and [error_type] first, and never leaves the handler. *)
Theorem create_checkout_session_logged_in environ create req σ u price_id :
  require_login req σ = inr u →
  environ !! "STRIPE_PRICE_ID" = Some price_id →
  snd (create_checkout_session environ create req σ)
    = log_stripe_call (checkout_request price_id) σ
  ∧ match create (checkout_request price_id) with
    | SessionCreated url =>
        fst (create_checkout_session environ create req σ)
        = JSONResponse [("checkout_url", JString url)] 200
    | CreateRaised e =>
        ∃ rest,
          fst (create_checkout_session environ create req σ)
          = JSONResponse (("error", JString (exn_str e))
                            :: ("error_type", JString (exn_type_name e)) :: rest) 500
    end.
Proof.
  intros Hlogin Hprice. unfold create_checkout_session, bind, gets, modify.
  rewrite Hlogin, Hprice. fold (checkout_request price_id).
  destruct (create (checkout_request price_id)) as [url|e]; [done|].
  split; [done|]. unfold error_details. simpl. eauto.
Qed.

Lemma create_checkout_session_logged_in_witness :
  snd (create_checkout_session {["STRIPE_PRICE_ID" := "price_1"]} demo_failing_create
         demo_request demo_state)
  = log_stripe_call (checkout_request "price_1") demo_state
  ∧ status_of (fst (create_checkout_session {["STRIPE_PRICE_ID" := "price_1"]}
                      demo_failing_create demo_request demo_state)) = 500.
Proof.
  pose proof (create_checkout_session_logged_in {["STRIPE_PRICE_ID" := "price_1"]}
                demo_failing_create demo_request demo_state "alice@example.com"
                "price_1" eq_refl eq_refl) as [Hs Hr].
  split; [exact Hs|]. destruct Hr as [rest ->]. reflexivity.
Defined.

(** X14. Starting a checkout never by itself changes who is paid or who is
    logged in, whatever the processor answers; it adds at most one entry to
    the processor log. *)
Theorem create_checkout_session_grants_nothing environ create req σ :
  let σ' := snd (create_checkout_session environ create req σ) in
  users_db σ' = users_db σ
  ∧ sessions σ' = sessions σ
  ∧ (∀ name, is_user_pro name σ' = is_user_pro name σ)
  ∧ (stripe_calls σ' = stripe_calls σ
     ∨ ∃ p, stripe_calls σ' = (stripe_calls σ ++ [p])%list).
Proof.
  intros σ'. unfold σ', create_checkout_session, bind, gets, modify. clear σ'.
  destruct (require_login req σ) as [redirect|u]; [by auto|].
  destruct (environ !! "STRIPE_PRICE_ID") as [price_id|]; [|by auto].
  destruct (create _); cbn; (split; [done|]); (split; [done|]);
    (split; [done|]); right; eauto.
Qed.

(** ** The webhook, continued *)

(** X15. Status 400 is the answer exactly when [construct_event] raises, with
    the message that names the cause, and then the state is returned as it
    was. *)
Theorem stripe_webhook_rejection_iff environ construct_event req σ :
  ((∃ r, fst (stripe_webhook environ construct_event req σ) = Returned r
         ∧ status_of r = 400)
   ↔ constructed_event environ construct_event req = RaisedValueError
     ∨ constructed_event environ construct_event req = RaisedSignatureVerificationError)
  ∧ (constructed_event environ construct_event req = RaisedValueError →
     stripe_webhook environ construct_event req σ
     = (Returned (JSONResponse [("error", JString "Invalid payload")] 400), σ))
  ∧ (constructed_event environ construct_event req = RaisedSignatureVerificationError →
     stripe_webhook environ construct_event req σ
     = (Returned (JSONResponse [("error", JString "Invalid signature")] 400), σ)).
Proof.
  split; [split|split].
  - intros (r & Hr & H400).
    by apply (stripe_webhook_400_only_on_failure environ construct_event req σ r).
  - intros H.
    destruct (stripe_webhook_rejects environ construct_event req σ H) as [msg ->].
    eexists. split; [reflexivity|done].
  - unfold constructed_event, stripe_webhook. by intros ->.
  - unfold constructed_event, stripe_webhook. by intros ->.
Qed.

(** X16. An event of any other type is acknowledged with status 200 and nothing
    is written, even when it carries the email of a registered user. *)
Theorem stripe_webhook_other_event_types environ construct_event req σ ev :
  constructed_event environ construct_event req = Constructed ev →
  ev_type ev ≠ "checkout.session.completed" →
  stripe_webhook environ construct_event req σ = (Returned acknowledged, σ).
Proof.
  unfold constructed_event, stripe_webhook. intros -> Hty.
  by rewrite decide_False.
Qed.

Lemma stripe_webhook_other_event_types_witness :
  stripe_webhook ∅ (delivers demo_other_event) demo_webhook_request demo_state
  = (Returned acknowledged, demo_state).
Proof.
  apply (stripe_webhook_other_event_types ∅ (delivers demo_other_event)
           demo_webhook_request demo_state demo_other_event);
    [reflexivity | discriminate].
Defined.

(** X17. The webhook never creates or removes an account, never changes a
    password, and never touches the sessions or the processor log: all it
    can do is set [is_pro] of existing records. *)
Theorem stripe_webhook_frame environ construct_event req σ :
  let σ' := snd (stripe_webhook environ construct_event req σ) in
  sessions σ' = sessions σ
  ∧ stripe_calls σ' = stripe_calls σ
  ∧ dom (users_db σ') = dom (users_db σ)
  ∧ ∀ u r, users_db σ !! u = Some r →
           ∃ r', users_db σ' !! u = Some r' ∧ password r' = password r.
Proof.
  intros σ'.
  assert (Hs : sessions σ' = sessions σ ∧ stripe_calls σ' = stripe_calls σ).
  { unfold σ', stripe_webhook.
    destruct (construct_event _ _ _) as [ev| |]; [|done..].
    destruct (decide (ev_type ev = "checkout.session.completed")); [|done].
    by destruct (purchaser_email (ev_data_object ev)). }
  destruct Hs as [Hs Hc]. split; [done|]. split; [done|].
  destruct (stripe_webhook_users environ construct_event req σ) as [x Hx].
  fold σ' in Hx.
  assert (Hkeep : ∀ u r, users_db σ !! u = Some r →
                         ∃ r', users_db σ' !! u = Some r' ∧ password r' = password r).
  { intros u r Hu. rewrite Hx.
    destruct (set_entitlement_paid_lookup x _ u r Hu) as [->| ->]; eauto. }
  split; [|done].
  apply set_eq. intros u. rewrite !elem_of_dom. split.
  - rewrite Hx. unfold set_entitlement_paid.
    destruct x as [name|]; [|done]. destruct (str_truthy name); [|done].
    destruct (users_db σ !! name) as [r|] eqn:Hn; [|done].
    destruct (decide (name = u)) as [->|Hne]; [by rewrite Hn|].
    by rewrite lookup_insert_ne.
  - intros [r Hu]. destruct (Hkeep u r Hu) as (r' & -> & _). done.
Qed.

(** X19. A payment takes effect on the very next request: once the webhook has
    handled a completed checkout whose email is a registered name, that
    user is paid, every later usage check lets them through without
    counting, and the counters they had are kept as they were. *)
Theorem webhook_upgrade_unmetered environ construct_event req σ ev u r :
  constructed_event environ construct_event req = Constructed ev →
  ev_type ev = "checkout.session.completed" →
  event_email (ev_data_object ev) = Some u →
  users_db σ !! u = Some r →
  let σ' := snd (stripe_webhook environ construct_event req σ) in
  fst (stripe_webhook environ construct_event req σ) = Returned acknowledged
  ∧ is_user_pro (Some u) σ' = true
  ∧ sessions σ' = sessions σ
  ∧ ∀ req' tool, check_usage_limit req' u tool σ' = (None, σ').
Proof.
  intros Hev Hty Hmail Hu σ'. unfold constructed_event in Hev.
  pose proof (purchaser_email_event_email (ev_data_object ev)) as Hspec.
  assert (E : stripe_webhook environ construct_event req σ
              = (Returned acknowledged,
                 set_users_db (set_entitlement_paid (Some u)) σ)
              ∧ u ≠ "").
  { unfold stripe_webhook. rewrite Hev, decide_True by done.
    destruct (purchaser_email (ev_data_object ev)) as [exn|x];
      rewrite Hmail in Hspec; [done|].
    destruct (truthy x) eqn:Hx; [|done]. subst x. split; [done|].
    simpl in Hx. unfold str_truthy in Hx. by case_bool_decide. }
  destruct E as [E Hne]. unfold σ'. rewrite E. cbn [fst snd].
  assert (Hpro : is_user_pro (Some u)
                   (set_users_db (set_entitlement_paid (Some u)) σ) = true).
  { apply (is_user_pro_paid u r); [done|]. unfold set_users_db. cbn [users_db].
    rewrite (set_entitlement_paid_present _ _ _ Hne Hu). apply lookup_insert_eq. }
  split; [done|]. split; [done|]. split; [done|].
  intros req' tool. by apply check_usage_limit_pro.
Qed.

Lemma webhook_upgrade_unmetered_witness :
  is_user_pro (Some "alice@example.com")
    (snd (stripe_webhook ∅ (delivers demo_event) demo_webhook_request demo_spent_state))
  = true
  ∧ fst (check_usage_limit demo_request "alice@example.com" "sora"
           (snd (stripe_webhook ∅ (delivers demo_event) demo_webhook_request
                   demo_spent_state))) = None
  ∧ fst (check_usage_limit demo_request "alice@example.com" "sora" demo_spent_state)
    = Some (limit_page "alice@example.com" "sora").
Proof.
  pose proof (webhook_upgrade_unmetered ∅ (delivers demo_event) demo_webhook_request
                demo_spent_state demo_event "alice@example.com"
                (UserRecord "pw" (Some false)) eq_refl eq_refl eq_refl eq_refl)
    as (_ & Hpro & _ & Hfree).
  split; [exact Hpro|]. split; [by rewrite Hfree | vm_compute; reflexivity].
Defined.

(** ** What every reachable state looks like *)

Lemma session_well_formed_mono db db' e :
  (∀ u, is_Some (db !! u) → is_Some (db' !! u)) →
  session_well_formed db e → session_well_formed db' e.
Proof.
  intros Hsub. destruct e as [[[u|] [c|]]|name]; simpl; try done.
  intros [Hu Hc]. split; [by apply Hsub | done].
Qed.

Lemma bump_counts_lookup_eq tool d :
  bump_counts tool d !! tool = Some (dict_count tool d + 1).
Proof.
  pose proof (dict_count_bumped tool d) as H. unfold dict_count at 1 in H.
  simpl in H. destruct (bump_counts tool d !! tool) as [v|] eqn:Hv.
  - simpl in H. by rewrite H.
  - unfold bump_counts in Hv. by rewrite lookup_insert_eq in Hv.
Qed.

Lemma bump_counts_in_range tool u c :
  counts_in_range c →
  dict_count tool (SessionFields u (Some c)) < 3 →
  counts_in_range (bump_counts tool (SessionFields u (Some c))).
Proof.
  intros Hc Hlt tool' k Hk.
  destruct (decide (tool' = tool)) as [->|Hne].
  - rewrite bump_counts_lookup_eq in Hk. injection Hk as <-.
    unfold dict_count in *. simpl in *.
    destruct (c !! tool) as [k0|] eqn:Hk0; simpl in *; [|lia].
    pose proof (Hc tool k0 Hk0). simpl in *. lia.
  - rewrite bump_counts_lookup_ne in Hk by done. by apply (Hc tool').
Qed.

Lemma well_formed_set_sessions_insert sid e σ :
  well_formed σ →
  session_well_formed (users_db σ) e →
  well_formed (set_sessions <[sid := e]> σ).
Proof.
  intros [Hs Hu] He. split; [|done]. unfold set_sessions. cbn [sessions users_db].
  by apply map_Forall_insert_2.
Qed.

Lemma check_usage_limit_well_formed req u tool σ :
  well_formed σ → well_formed (snd (check_usage_limit req u tool σ)).
Proof.
  intros Hwf.
  destruct (check_usage_limit_effect req u tool σ)
    as [->|(sid & e & Hc & [_ He]%session_entry_Some & Hlt & ->)]; [done|].
  apply well_formed_set_sessions_insert; [done|].
  pose proof (proj1 Hwf sid e He) as Hwe. simpl in Hwe.
  destruct e as [[[owner|] [c|]]|name]; try done.
  destruct Hwe as [Hreg Hrange]. simpl. split; [done|].
  by apply bump_counts_in_range.
Qed.

Lemma set_entitlement_paid_is_Some x db u :
  is_Some (db !! u) → is_Some (set_entitlement_paid x db !! u).
Proof.
  intros [r Hr]. destruct (set_entitlement_paid_lookup x db u r Hr) as [->| ->]; eauto.
Qed.

Lemma set_entitlement_paid_flags x db :
  map_Forall (λ _ r, is_Some (is_pro r)) db →
  map_Forall (λ _ r, is_Some (is_pro r)) (set_entitlement_paid x db).
Proof.
  intros Hdb. unfold set_entitlement_paid.
  destruct x as [name|]; [|done]. destruct (str_truthy name); [|done].
  destruct (db !! name) as [r|]; [|done].
  apply map_Forall_insert_2; [by eexists | done].
Qed.

(** One request keeps a well-formed state well formed. *)
Lemma step_well_formed environ create construct_event o σ :
  well_formed σ → well_formed (step environ create construct_event o σ).
Proof.
  intros Hwf. destruct o as [name p|t name p|req|tool req|req|req]; simpl.
  - destruct (users_db σ !! name) as [r|] eqn:Hn.
    + by rewrite (register_post_existing_name _ _ _ _ Hn).
    + rewrite (register_post_fresh_name _ _ _ Hn). destruct Hwf as [Hs Hu].
      split; cbn [snd set_users_db users_db sessions].
      * eapply map_Forall_impl; [exact Hs|]. intros sid e He. simpl in He.
        eapply session_well_formed_mono; [|exact He].
        intros u Hu'. by apply lookup_insert_is_Some'; right.
      * apply map_Forall_insert_2; [by eexists | done].
  - unfold login_post, bind, gets.
    destruct (users_db σ !! name) as [[stored pro]|] eqn:Hn; [|done].
    destruct (decide (stored = p)); [|done].
    apply (well_formed_set_sessions_insert t _ σ Hwf). simpl.
    split; [by rewrite Hn | apply map_Forall_empty].
  - rewrite logout_state. unfold delete_session.
    destruct (cookies req !! "session_id") as [sid|]; [|done].
    destruct (session_entry (Some sid) σ); [|done].
    destruct Hwf as [Hs Hu]. split; [|done]. by apply map_Forall_delete.
  - unfold tool_generate, bind, gets.
    destruct (require_login req σ) as [redirect|u]; [done|].
    by apply check_usage_limit_well_formed.
  - destruct Hwf as [Hs Hu].
    pose proof (create_checkout_session_users environ create req σ) as Hdb.
    assert (Hss : sessions (snd (create_checkout_session environ create req σ))
                  = sessions σ).
    { unfold create_checkout_session, bind, gets.
      destruct (require_login req σ); [done|].
      destruct (environ !! "STRIPE_PRICE_ID"); [|done]. simpl. by destruct (create _). }
    unfold well_formed. by rewrite Hdb, Hss.
  - destruct Hwf as [Hs Hu].
    destruct (stripe_webhook_users environ construct_event req σ) as [x Hx].
    assert (Hss : sessions (snd (stripe_webhook environ construct_event req σ))
                  = sessions σ).
    { unfold stripe_webhook.
      destruct (construct_event _ _ _) as [ev| |]; [|done..].
      destruct (decide (ev_type ev = "checkout.session.completed")); [|done].
      by destruct (purchaser_email (ev_data_object ev)). }
    unfold well_formed. rewrite Hx, Hss. split.
    + eapply map_Forall_impl; [exact Hs|]. intros sid e He. simpl in He.
      eapply session_well_formed_mono; [|exact He].
      intros u. apply set_entitlement_paid_is_Some.
    + by apply set_entitlement_paid_flags.
Qed.

Lemma run_ops_well_formed environ create construct_event os σ :
  well_formed σ → well_formed (run_ops environ create construct_event os σ).
Proof.
  unfold run_ops. revert σ. induction os as [|o os IH]; intros σ Hwf; [done|].
  simpl. apply IH. by apply step_well_formed.
Qed.

Lemma initial_state_well_formed : well_formed initial_state.
Proof. split; apply map_Forall_empty. Qed.

Lemma well_formed_entry session_id σ e :
  well_formed σ →
  session_entry session_id σ = Some e →
  ∃ u c, e = SessionDict (SessionFields (Some u) (Some c))
         ∧ is_Some (users_db σ !! u) ∧ counts_in_range c.
Proof.
  intros [Hs _] He. destruct session_id as [sid|]; [|done].
  apply session_entry_Some in He as [_ He].
  pose proof (Hs sid e He) as Hwe. simpl in Hwe.
  destruct e as [[[u|] [c|]]|name]; try done. destruct Hwe. eauto.
Qed.

(** X20. No counter ever leaves the range 0..3: from the start of the process,
    and from any well-formed state, after any sequence of requests every
    counter [get_usage_count] can read is at least 0 and at most 3. *)
Theorem counters_stay_in_range environ create construct_event os σ :
  well_formed σ →
  ∀ session_id tool,
    0 ≤ fst (get_usage_count session_id tool
               (run_ops environ create construct_event os σ)) ≤ 3.
Proof.
  intros Hwf session_id tool.
  pose proof (run_ops_well_formed environ create construct_event os σ Hwf) as Hwf'.
  rewrite get_usage_count_read.
  destruct (session_entry session_id _) as [e|] eqn:He; [|lia].
  destruct (well_formed_entry _ _ _ Hwf' He) as (u & c & -> & _ & Hrange).
  unfold dict_count. simpl.
  destruct (c !! tool) as [k|] eqn:Hk; simpl; [|lia].
  pose proof (Hrange tool k Hk). simpl in *. lia.
Qed.

Lemma counters_stay_in_range_witness :
  0 ≤ fst (get_usage_count (Some "tok2") "sora"
             (run_ops ∅ demo_create (delivers demo_event) demo_browsing initial_state))
    ≤ 3
  ∧ fst (get_usage_count (Some "tok2") "sora"
           (run_ops ∅ demo_create (delivers demo_event) demo_browsing initial_state))
    = 3.
Proof.
  split; [|vm_compute; reflexivity].
  apply (counters_stay_in_range ∅ demo_create (delivers demo_event) demo_browsing
           initial_state initial_state_well_formed).
Defined.

(** X21. Every live session belongs to a registered account: after any sequence
    of requests, a token that resolves to a name resolves to a name that is
    in the registry. *)
Theorem sessions_owned_by_registered_users environ create construct_event os σ :
  well_formed σ →
  ∀ session_id u,
    get_username_from_session session_id
      (run_ops environ create construct_event os σ) = Some u →
    is_Some (users_db (run_ops environ create construct_event os σ) !! u).
Proof.
  intros Hwf session_id u.
  pose proof (run_ops_well_formed environ create construct_event os σ Hwf) as Hwf'.
  unfold get_username_from_session.
  destruct (session_entry session_id _) as [e|] eqn:He; [|done].
  destruct (well_formed_entry _ _ _ Hwf' He) as (u' & c & -> & Hreg & _).
  simpl. by intros [= <-].
Qed.

Lemma sessions_owned_by_registered_users_witness :
  get_username_from_session (Some "tok2")
    (run_ops ∅ demo_create (delivers demo_event) demo_browsing initial_state)
  = Some "alice@example.com"
  ∧ is_Some (users_db (run_ops ∅ demo_create (delivers demo_event) demo_browsing
                         initial_state) !! "alice@example.com").
Proof.
  assert (H : get_username_from_session (Some "tok2")
                (run_ops ∅ demo_create (delivers demo_event) demo_browsing initial_state)
              = Some "alice@example.com") by (vm_compute; reflexivity).
  split; [exact H|].
  exact (sessions_owned_by_registered_users ∅ demo_create (delivers demo_event)
           demo_browsing initial_state initial_state_well_formed (Some "tok2")
           "alice@example.com" H).
Defined.

(** X22. In a running process reading a session never writes: the old-format
    entry and the dict without its keys, which [get_session_data] and
    [get_usage_count] provide for, are never in the store, so both return
    the state they were given. *)
Theorem reads_never_write environ create construct_event os σ :
  well_formed σ →
  ∀ session_id tool,
    let τ := run_ops environ create construct_event os σ in
    snd (get_session_data session_id τ) = τ
    ∧ snd (get_usage_count session_id tool τ) = τ
    ∧ (∀ d, fst (get_session_data session_id τ) = Some d →
            is_Some (sd_username d) ∧ is_Some (sd_counts d)).
Proof.
  intros Hwf session_id tool τ.
  pose proof (run_ops_well_formed environ create construct_event os σ Hwf) as Hwf'.
  fold τ in Hwf'.
  destruct (session_entry session_id τ) as [e|] eqn:He.
  - destruct (well_formed_entry _ _ _ Hwf' He) as (u & c & -> & _ & _).
    destruct session_id as [sid|]; [|done].
    rewrite (get_session_data_dict _ _ _ He), (get_usage_count_dict _ _ _ _ He).
    split; [done|]. split; [done|]. intros d [= <-]. simpl. eauto.
  - rewrite (get_session_data_unknown _ _ He).
    unfold get_usage_count, bind. rewrite (get_session_data_unknown _ _ He).
    split; [done|]. split; [done|]. by intros d [=].
Qed.

Lemma reads_never_write_witness :
  snd (get_session_data (Some "tok2")
         (run_ops ∅ demo_create (delivers demo_event) demo_browsing initial_state))
  = run_ops ∅ demo_create (delivers demo_event) demo_browsing initial_state.
Proof.
  exact (proj1 (reads_never_write ∅ demo_create (delivers demo_event) demo_browsing
                  initial_state initial_state_well_formed (Some "tok2") "sora")).
Defined.
